(** * nuagekubemon: the IPv4 subnet pool and the VSD client

    A shallow embedding of [nuagekubemon/client/ipv4subnet.go] and of the
    reconciler in [nuagevsdclient.go], with the properties of the
    specification stated over it.

    Conventions.  Go's [int] and [uint] are taken at 64 bits and [uint8] at
    8 bits; they are integers in [Z] with the wrap-around written where the
    source computes.  A call either returns, or panics (index out of range,
    write to a nil map), or ends the process ([glog.Fatal]); Go [error]
    values are ordinary results. *)

From Stdlib Require Import ZArith Lia Bool.
From stdpp Require Import base option list gmap strings pretty.

Local Open Scope Z_scope.

(** ** Outcomes of a call *)

Inductive exec (A : Type) : Type :=
| Done (a : A)   (* the call returns [a] *)
| Panic          (* run-time panic *)
| Exit           (* [glog.Fatal]: the process exits *)
| OutOfFuel.     (* recursion bound of the embedding exhausted; see [Alloc_total] *)
Arguments Done {A} a.
Arguments Panic {A}.
Arguments Exit {A}.
Arguments OutOfFuel {A}.

Definition exec_bind {A B : Type} (x : exec A) (k : A -> exec B) : exec B :=
  match x with
  | Done a => k a
  | Panic => Panic
  | Exit => Exit
  | OutOfFuel => OutOfFuel
  end.

Declare Scope exec_scope.
Delimit Scope exec_scope with exec.
Notation "'do' x <- c ; k" := (exec_bind c (fun x => k))
  (at level 10, x pattern, c at level 100, k at level 200) : exec_scope.
Local Open Scope exec_scope.

(** ** Machine integers *)

Definition wrap_int (z : Z) : Z := (z + 2 ^ 63) mod 2 ^ 64 - 2 ^ 63.
Definition wrap_uint (z : Z) : Z := z mod 2 ^ 64.
Definition wrap_uint8 (z : Z) : Z := z mod 256.

(** [x << k] on a [uint], [k] an unsigned shift count. *)
Definition shl_uint (x k : Z) : Z := wrap_uint (Z.shiftl x k).
(** [x >> k] on a [uint8]. *)
Definition shr_uint8 (x k : Z) : Z := Z.shiftr x k.
(** [^x] on a [uint8]. *)
Definition not_uint8 (x : Z) : Z := wrap_uint8 (Z.lnot x).

(** ** Errors

    The values built with [errors.New] in the two source files, by message. *)

Inductive error : Type :=
| ErrInvalidSyntax                 (* "Invalid syntax in input string %q" *)
| ErrCannotSplit32                 (* "Cannot split /32 address space" *)
| ErrCannotMerge                   (* "Can't merge subnets %s and %s!" *)
| ErrInvalidSubnetSize             (* "Invalid subnet size.  Expected between /0 and /32":
                                      what Alloc returns when no block is left, the
                                      specification's OutOfAddresses *)
| ErrBadSubnet                     (* "Cannot free bad subnet %s" *)
| ErrDoubleFree                    (* "Double free of %s" *)
| ErrTransport                     (* the [err] of a napping session call *)
| ErrUnexpectedStatus (status : Z) (* VsdErrorResponse: "Unexpected error code: %v" *)
| ErrNotFound (what : string)      (* "<what> not found" *)
| ErrFoundInstead (found wanted : string) (* "Found %q instead of %q": a mismatch *)
| ErrInvalidZoneID                 (* "Invalid zone ID returned" *)
| ErrIncorrectAnnotation           (* "Incorrect annotation information ..." *)
| ErrInsufficientAnnotation.       (* "Insufficient annotation information ..." *)

Inductive result (A : Type) : Type :=
| Ok (a : A)
| Err (e : error).
Arguments Ok {A} a.
Arguments Err {A} e.

(** ** IPv4 addresses and subnets *)

(** [type IPv4Address [4]uint8] *)
Record IPv4Address : Type := mkAddr { oct0 : Z; oct1 : Z; oct2 : Z; oct3 : Z }.

Record IPv4Subnet : Type := mkSubnet { Address : IPv4Address; CIDRMask : Z }.

Definition zero_addr : IPv4Address := mkAddr 0 0 0 0.

(** [addr[i]] for a computed index: out of range is a run-time panic. *)
Definition addr_get (addr : IPv4Address) (i : Z) : exec Z :=
  if i =? 0 then Done (oct0 addr)
  else if i =? 1 then Done (oct1 addr)
  else if i =? 2 then Done (oct2 addr)
  else if i =? 3 then Done (oct3 addr)
  else Panic.

(** [addr[i] = v] *)
Definition addr_set (addr : IPv4Address) (i v : Z) : exec IPv4Address :=
  if i =? 0 then Done (mkAddr v (oct1 addr) (oct2 addr) (oct3 addr))
  else if i =? 1 then Done (mkAddr (oct0 addr) v (oct2 addr) (oct3 addr))
  else if i =? 2 then Done (mkAddr (oct0 addr) (oct1 addr) v (oct3 addr))
  else if i =? 3 then Done (mkAddr (oct0 addr) (oct1 addr) (oct2 addr) v)
  else Panic.

Definition octet (v : Z) : Prop := 0 <= v < 256.

Definition wf_addr (a : IPv4Address) : Prop :=
  octet (oct0 a) /\ octet (oct1 a) /\ octet (oct2 a) /\ octet (oct3 a).

Definition wf_subnet (s : IPv4Subnet) : Prop :=
  wf_addr (Address s) /\ 0 <= CIDRMask s <= 32.

Global Instance IPv4Address_eq_dec : EqDecision IPv4Address.
Proof. solve_decision. Defined.
Global Instance IPv4Subnet_eq_dec : EqDecision IPv4Subnet.
Proof. solve_decision. Defined.

(** [func (subnet IPv4Subnet) Netmask() IPv4Address] *)
Definition Netmask (subnet : IPv4Subnet) : IPv4Address :=
  if 32 <=? CIDRMask subnet then mkAddr 255 255 255 255
  else
    let fullmask :=
      wrap_uint (2 ^ 32 - shl_uint 1 (wrap_uint (wrap_int (32 - CIDRMask subnet)))) in
    mkAddr (wrap_uint8 ((fullmask / 2 ^ 24) mod 256))
           (wrap_uint8 ((fullmask / 2 ^ 16) mod 256))
           (wrap_uint8 ((fullmask / 256) mod 256))
           (wrap_uint8 (fullmask mod 256)).

(** One turn of the loop of [Split]: the state is [(lo, hi, mask)]. *)
Definition Split_step (subnet : IPv4Subnet)
    (st : IPv4Address * IPv4Address * Z) (i : Z)
  : exec (IPv4Address * IPv4Address * Z) :=
  let '(lo, hi, mask) := st in
  if 8 <=? mask then
    do v <- addr_get (Address subnet) i;
    do lo' <- addr_set lo i v;
    do hi' <- addr_set hi i v;
    Done (lo', hi', mask - 8)
  else if 0 <? mask then
    let bitmask := wrap_uint8 (wrap_uint (256 - shl_uint 1 (wrap_uint (8 - mask))) mod 256) in
    do v <- addr_get (Address subnet) i;
    do lo' <- addr_set lo i (Z.land v bitmask);
    do hi' <- addr_set hi i (Z.land v bitmask);
    Done (lo', hi', 0)
  else Done (lo, hi, mask).

(** [func (subnet *IPv4Subnet) Split()], returning the low half, the high
    half and an error. *)
Definition Split (subnet : IPv4Subnet) : exec (result (IPv4Subnet * IPv4Subnet)) :=
  if 32 <=? CIDRMask subnet then Done (Err ErrCannotSplit32)
  else
    do st0 <- Split_step subnet (zero_addr, zero_addr, CIDRMask subnet) 0;
    do st1 <- Split_step subnet st0 1;
    do st2 <- Split_step subnet st1 2;
    do st3 <- Split_step subnet st2 3;
    let '(lo, hi, _) := st3 in
    let newmask := wrap_int (CIDRMask subnet + 1) in
    let index := Z.quot (CIDRMask subnet) 8 in
    let offset := wrap_uint (Z.rem (CIDRMask subnet) 8) in
    let bit := shr_uint8 128 offset in
    do l <- addr_get lo index;
    do lo' <- addr_set lo index (Z.land l (not_uint8 bit));
    do h <- addr_get hi index;
    do hi' <- addr_set hi index (Z.lor h bit);
    Done (Ok (mkSubnet lo' newmask, mkSubnet hi' newmask)).

(** [func (a *IPv4Subnet) Compare(b *IPv4Subnet) int] *)
Definition Compare (a b : IPv4Subnet) : exec Z :=
  let n := wrap_int (CIDRMask b - CIDRMask a) in
  if negb (n =? 0) then Done n
  else
    let index := Z.quot (CIDRMask a) 8 in
    let mask :=
      wrap_uint8
        (wrap_uint (256 - shl_uint 1 (wrap_uint (8 - Z.rem (CIDRMask a) 8))) mod 256) in
    do x <- addr_get (Address a) index;
    do y <- addr_get (Address b) index;
    Done (wrap_uint8 (Z.land x mask - Z.land y mask)).

(** [func CanMerge(a, b *IPv4Subnet) bool] *)
Definition CanMerge (a b : IPv4Subnet) : exec bool :=
  if (CIDRMask a <=? 0) || (CIDRMask b <=? 0) then Done false
  else
    do c <- Compare a b;
    if c =? 0 then Done false
    else if negb (CIDRMask a =? CIDRMask b) then Done false
    else
      let aCopy := mkSubnet (Address a) (wrap_int (CIDRMask a - 1)) in
      let bCopy := mkSubnet (Address b) (wrap_int (CIDRMask b - 1)) in
      do c' <- Compare aCopy bCopy;
      Done (c' =? 0).

(** [func Merge(a, b *IPv4Subnet)], returning the merged subnet or an error. *)
Definition Merge (a b : IPv4Subnet) : exec (result IPv4Subnet) :=
  do ok <- CanMerge a b;
  if negb ok then Done (Err ErrCannotMerge)
  else
    let newmask := wrap_int (CIDRMask a - 1) in
    let index := Z.quot newmask 8 in
    let mask := wrap_uint8 (wrap_uint (2 ^ 8 - shl_uint 1 (wrap_uint (8 - Z.rem newmask 8)))) in
    do v <- addr_get (Address a) index;
    do addr <- addr_set (Address a) index (Z.land v mask);
    Done (Ok (mkSubnet addr newmask)).

(** ** The subnet pool

    [type IPv4SubnetPool [33]*IPv4SubnetNode]: an array of 33 linked lists,
    here a list of 33 buckets; indexing outside the array panics. *)

Abbreviation IPv4SubnetPool := (list (list IPv4Subnet)).

Definition empty_pool : IPv4SubnetPool := replicate 33 [].

Definition wf_pool (pool : IPv4SubnetPool) : Prop := length pool = 33%nat.

(** The loop of [Free] over the nodes after the head: the list from [curr]
    on, rebuilt with the subnet linked in, or the double-free error. *)
Fixpoint Free_loop (subnet : IPv4Subnet) (curr : list IPv4Subnet)
  : exec (result (list IPv4Subnet)) :=
  match curr with
  | [] => Done (Ok [subnet])
  | c :: next =>
      do n <- Compare subnet c;
      if n =? 0 then Done (Err ErrDoubleFree)
      else
        do n' <- Compare subnet c;
        if n' <? 0 then Done (Ok (subnet :: c :: next))
        else
          do r <- Free_loop subnet next;
          match r with
          | Ok rest => Done (Ok (c :: rest))
          | Err e => Done (Err e)
          end
  end.

(** [func (pool *IPv4SubnetPool) Free(subnet *IPv4Subnet) error] *)
Definition Free (pool : IPv4SubnetPool) (subnet : IPv4Subnet)
  : exec (option error * IPv4SubnetPool) :=
  if (CIDRMask subnet <? 0) || (32 <? CIDRMask subnet) then Done (Some ErrBadSubnet, pool)
  else
    let k := Z.to_nat (CIDRMask subnet) in
    match pool !! k with
    | None => Panic
    | Some [] => Done (None, <[k := [subnet]]> pool)
    | Some (c :: next) =>
        do n <- Compare subnet c;
        if n <? 0 then Done (None, <[k := subnet :: c :: next]> pool)
        else
          do r <- Free_loop subnet next;
          match r with
          | Ok rest => Done (None, <[k := c :: rest]> pool)
          | Err e => Done (Some e, pool)
          end
    end.

(** [func (pool *IPv4SubnetPool) Alloc(size int)], returning a subnet or an
    error.
    The recursion is on [size - 1] down to [-1]; [fuel] bounds its depth. *)
Fixpoint Alloc_fuel (fuel : nat) (pool : IPv4SubnetPool) (size : Z)
  : exec (result IPv4Subnet * IPv4SubnetPool) :=
  match fuel with
  | O => OutOfFuel
  | S fuel' =>
      if (size <? 0) || (32 <? size) then Done (Err ErrInvalidSubnetSize, pool)
      else
        let k := Z.to_nat size in
        match pool !! k with
        | None => Panic
        | Some (node :: next) => Done (Ok node, <[k := next]> pool)
        | Some [] =>
            do (big, pool1) <- Alloc_fuel fuel' pool (size - 1);
            match big with
            | Err e => Done (Err e, pool1)
            | Ok bigSubnet =>
                do halves <- Split bigSubnet;
                match halves with
                | Err e =>
                    do (_, pool2) <- Free pool1 bigSubnet;
                    Done (Err e, pool2)
                | Ok (loSubnet, hiSubnet) =>
                    do (err, pool2) <- Free pool1 hiSubnet;
                    match err with
                    | Some e =>
                        do (_, pool3) <- Free pool2 bigSubnet;
                        Done (Err e, pool3)
                    | None => Done (Ok loSubnet, pool2)
                    end
                end
            end
        end
  end.

(** A request for a size in [0, 32] recurses at most 33 times before the
    size is [-1]. *)
Definition Alloc (pool : IPv4SubnetPool) (size : Z)
  : exec (result IPv4Subnet * IPv4SubnetPool) :=
  Alloc_fuel 34 pool size.

(** ** Scenarios over the pool *)

(** [n] successive calls [pool.Alloc(size)], with every result. *)
Fixpoint Alloc_repeat (n : nat) (pool : IPv4SubnetPool) (size : Z)
  : exec (list (result IPv4Subnet) * IPv4SubnetPool) :=
  match n with
  | O => Done ([], pool)
  | S n' =>
      do (r, pool1) <- Alloc pool size;
      do (rs, pool2) <- Alloc_repeat n' pool1 size;
      Done (r :: rs, pool2)
  end.

(** The address [ip] lies in the block of [s]: it agrees with the address of
    [s] under the netmask of [s]. *)
Definition in_subnet (ip : IPv4Address) (s : IPv4Subnet) : Prop :=
  let m := Netmask s in
  Z.land (oct0 ip) (oct0 m) = Z.land (oct0 (Address s)) (oct0 m) /\
  Z.land (oct1 ip) (oct1 m) = Z.land (oct1 (Address s)) (oct1 m) /\
  Z.land (oct2 ip) (oct2 m) = Z.land (oct2 (Address s)) (oct2 m) /\
  Z.land (oct3 ip) (oct3 m) = Z.land (oct3 (Address s)) (oct3 m).

(** A client of the pool: it allocates, and frees subnets it holds. *)
Inductive PoolOp : Type :=
| OpAlloc (size : Z)
| OpFree (subnet : IPv4Subnet).

(** Drop the first occurrence of [s] from the subnets held. *)
Fixpoint release (s : IPv4Subnet) (held : list IPv4Subnet) : list IPv4Subnet :=
  match held with
  | [] => []
  | h :: rest => if decide (h = s) then rest else h :: release s rest
  end.

(** Run a sequence of operations, keeping the subnets returned by [Alloc] and
    not yet freed.  [None] when the sequence frees a subnet the client does
    not hold, or when a call does not return. *)
Fixpoint run_ops (ops : list PoolOp) (pool : IPv4SubnetPool) (held : list IPv4Subnet)
  : option (IPv4SubnetPool * list IPv4Subnet) :=
  match ops with
  | [] => Some (pool, held)
  | OpAlloc size :: ops' =>
      match Alloc pool size with
      | Done (Ok s, pool') => run_ops ops' pool' (s :: held)
      | Done (Err _, pool') => run_ops ops' pool' held
      | _ => None
      end
  | OpFree s :: ops' =>
      if decide (s ∈ held) then
        match Free pool s with
        | Done (_, pool') => run_ops ops' pool' (release s held)
        | _ => None
        end
      else None
  end.

(** The sizes requested by a sequence. *)
Definition alloc_sizes (ops : list PoolOp) : list Z :=
  omap (fun op => match op with OpAlloc size => Some size | OpFree _ => None end) ops.

(** ** The VSD client: data

    The packages [api] and [config] are not part of the listing.  Their types
    are taken with the fields the client reads and writes. *)

Local Open Scope string_scope.
Local Open Scope Z_scope.

(** The double quote character, for [%q] and quoted descriptions. *)
Definition dquote : string := String (Ascii.ascii_of_nat 34) EmptyString.

Record VsdObject : Type := mkObject {
  obj_ID : string; obj_Name : string; obj_Description : string }.

Record VsdAclTemplate : Type := mkAclTemplate {
  tpl_Name : string; tpl_DefaultAllowIP : bool; tpl_DefaultAllowNonIP : bool }.

Record VsdAclEntry : Type := mkAclEntry {
  acl_ID : string;
  acl_Action : string;
  acl_Description : string;
  acl_EntityScope : string;
  acl_EtherType : string;
  acl_LocationID : string;
  acl_LocationType : string;
  acl_NetworkID : string;
  acl_NetworkType : string;
  acl_PolicyState : string;
  acl_Priority : Z;
  acl_Protocol : string;
  acl_Reflexive : bool }.

Record VsdSubnet : Type := mkVsdSubnet {
  sub_ID : string;
  sub_IPType : string;
  sub_Address : string;
  sub_Netmask : string;
  sub_Description : string;
  sub_Name : string;
  sub_PATEnabled : string }.

Record VsdNetworkMacro : Type := mkNetworkMacro {
  nm_ID : string; nm_Name : string; nm_IPType : string;
  nm_Address : string; nm_Netmask : string }.

Inductive EventType : Type := Added | Deleted.

Record NamespaceEvent : Type := mkNsEvent { ns_Type : EventType; ns_Name : string }.

Record ServiceEvent : Type := mkServiceEvent {
  svc_Type : EventType;
  svc_Namespace : string;
  svc_Name : string;
  svc_ClusterIP : string;
  svc_NuageAnnotations : gmap string string }.

(** [type NamespaceData]: the record kept per namespace.  A stored record
    always carries a map made with [make]. *)
Record NamespaceData : Type := mkNamespaceData {
  ZoneID : string;
  NetworkMacroGroupID : string;
  NetworkMacros : gmap string string }.

(** [type SubnetList]: a linked list of (subnet id, subnet). *)
Abbreviation SubnetList := (list (string * IPv4Subnet)).

(** [type NuageVsdClient], with the fields its methods use.  The session
    (url, credentials, headers) is on the side of [serve] below.  [zones] is
    [None] for the nil map that [new(NuageVsdClient)] leaves: the listed
    [Init] makes [namespaces] and [subnets] only. *)
Record NuageVsdClient : Type := mkClient {
  enterpriseID : string;
  domainID : string;
  ingressAclTemplateID : string;
  egressAclTemplateID : string;
  nextAvailablePriority : Z;
  namespaces : gmap string NamespaceData;
  zones : option (gmap string string);
  subnets : gmap string SubnetList;
  pool : list (list IPv4Subnet);
  subnetSize : Z }.

Definition set_ingressAclTemplateID (v : string) (c : NuageVsdClient) : NuageVsdClient :=
  mkClient (enterpriseID c) (domainID c) v (egressAclTemplateID c)
    (nextAvailablePriority c) (namespaces c) (zones c) (subnets c) (pool c) (subnetSize c).
Definition set_egressAclTemplateID (v : string) (c : NuageVsdClient) : NuageVsdClient :=
  mkClient (enterpriseID c) (domainID c) (ingressAclTemplateID c) v
    (nextAvailablePriority c) (namespaces c) (zones c) (subnets c) (pool c) (subnetSize c).
Definition set_nextAvailablePriority (v : Z) (c : NuageVsdClient) : NuageVsdClient :=
  mkClient (enterpriseID c) (domainID c) (ingressAclTemplateID c) (egressAclTemplateID c)
    v (namespaces c) (zones c) (subnets c) (pool c) (subnetSize c).
Definition set_namespaces (v : gmap string NamespaceData) (c : NuageVsdClient)
  : NuageVsdClient :=
  mkClient (enterpriseID c) (domainID c) (ingressAclTemplateID c) (egressAclTemplateID c)
    (nextAvailablePriority c) v (zones c) (subnets c) (pool c) (subnetSize c).
Definition set_zones (v : option (gmap string string)) (c : NuageVsdClient)
  : NuageVsdClient :=
  mkClient (enterpriseID c) (domainID c) (ingressAclTemplateID c) (egressAclTemplateID c)
    (nextAvailablePriority c) (namespaces c) v (subnets c) (pool c) (subnetSize c).
Definition set_subnets (v : gmap string SubnetList) (c : NuageVsdClient) : NuageVsdClient :=
  mkClient (enterpriseID c) (domainID c) (ingressAclTemplateID c) (egressAclTemplateID c)
    (nextAvailablePriority c) (namespaces c) (zones c) v (pool c) (subnetSize c).
Definition set_pool (v : list (list IPv4Subnet)) (c : NuageVsdClient) : NuageVsdClient :=
  mkClient (enterpriseID c) (domainID c) (ingressAclTemplateID c) (egressAclTemplateID c)
    (nextAvailablePriority c) (namespaces c) (zones c) (subnets c) v (subnetSize c).

(** ** The REST session

    A request names its resource by the path the client builds after the base
    url, and a list [GET] carries the [X-Nuage-Filter] header. *)

Inductive Endpoint : Type :=
| EpZones (domain : string)               (* domains/<id>/zones *)
| EpZone (id : string)                    (* zones/<id>?responseChoice=1 *)
| EpSubnets (zone : string)               (* zones/<id>/subnets *)
| EpSubnet (id : string)                  (* subnets/<id>?responseChoice=1 *)
| EpIngressAclTemplates (domain : string) (* domains/<id>/ingressacltemplates *)
| EpEgressAclTemplates (domain : string)  (* domains/<id>/egressacltemplates *)
| EpIngressAclEntries (template : string) (* ingressacltemplates/<id>/ingressaclentrytemplates *)
| EpEgressAclEntries (template : string)  (* egressacltemplates/<id>/egressaclentrytemplates *)
| EpIngressAclEntry (id : string)         (* ingressaclentrytemplates/<id>?responseChoice=1 *)
| EpEgressAclEntry (id : string)          (* egressaclentrytemplates/<id>?responseChoice=1 *)
| EpNetworkMacroGroups (enterprise : string) (* enterprises/<id>/networkmacrogroups *)
| EpNetworkMacroGroup (id : string)       (* networkmacrogroups/<id>?responseChoice=1 *)
| EpGroupMembers (group : string)         (* networkmacrogroups/<id>/enterprisenetworks *)
| EpEnterpriseNetworks (enterprise : string) (* enterprises/<id>/enterprisenetworks *)
| EpNetworkMacros (enterprise : string)   (* enterprises/<id>/networkmacros *)
| EpEnterpriseNetwork (id : string).      (* enterprisenetworks/<id>?responseChoice=1 *)

Inductive Filter : Type :=
| FName (name : string)        (* name == "<name>" *)
| FAddress (address : string)  (* address == "<address>" *)
| FMacro (name ipType address netmask : string)
                               (* name == ".." and IPType ==".." and address == ".."
                                  and netmask == ".." *)
| FAclEntry (aclEntry : VsdAclEntry).
                               (* the fields of the entry the callers of
                                  [GetAclEntry] fill in: all but the id and
                                  the priority *)

(** The JSON body of a request or of the first element of a response. *)
Inductive Body : Type :=
| BNone
| BObject (o : VsdObject)
| BAclTemplate (t : VsdAclTemplate)
| BAclEntry (e : VsdAclEntry)
| BSubnet (s : VsdSubnet)
| BNetworkMacro (m : VsdNetworkMacro).

Inductive Request : Type :=
| Post (ep : Endpoint) (payload : Body)
| Get (ep : Endpoint) (filter : Filter)
| Put (ep : Endpoint) (ids : list string)
| Delete (ep : Endpoint).

Record Response : Type := mkResponse { status : Z; body : Body }.

(** [result[0]] after decoding into a slice made with one zero element: the
    fields of the body, or zero values where the body has none. *)
Definition body_ID (b : Body) : string :=
  match b with
  | BObject o => obj_ID o
  | BAclEntry e => acl_ID e
  | BSubnet s => sub_ID s
  | BNetworkMacro m => nm_ID m
  | _ => EmptyString
  end.

Definition body_Name (b : Body) : string :=
  match b with
  | BObject o => obj_Name o
  | BAclTemplate t => tpl_Name t
  | BSubnet s => sub_Name s
  | BNetworkMacro m => nm_Name m
  | _ => EmptyString
  end.

Definition body_Address (b : Body) : string :=
  match b with
  | BSubnet s => sub_Address s
  | BNetworkMacro m => nm_Address m
  | _ => EmptyString
  end.

(** [func (addr IPv4Address) String() string] *)
Definition addr_String (addr : IPv4Address) : string :=
  pretty (oct0 addr) +:+ "." +:+ pretty (oct1 addr) +:+ "." +:+
  pretty (oct2 addr) +:+ "." +:+ pretty (oct3 addr).

(** [func (subnet IPv4Subnet) String() string] *)
Definition subnet_String (subnet : IPv4Subnet) : string :=
  addr_String (Address subnet) +:+ "/" +:+ pretty (CIDRMask subnet).

(** ** The VSD client: operations *)

Section Client.

(** The VSD behind the napping session: its state, and what it answers to a
    request ([None]: the session call itself fails). *)
Context {Vsd : Type}.
Variable serve : Request -> Vsd -> option Response * Vsd.

(** [api.PATInherited] *)
Variable PATInherited : string.

(** A method runs on the client and the VSD. *)
Definition M (A : Type) : Type := NuageVsdClient * Vsd -> exec (A * (NuageVsdClient * Vsd)).

Definition ret {A : Type} (a : A) : M A := fun st => Done (a, st).

Definition bind {A B : Type} (m : M A) (k : A -> M B) : M B :=
  fun st => do r <- m st; k (fst r) (snd r).

Definition panic {A : Type} : M A := fun _ => Panic.

Definition client : M NuageVsdClient := fun st => Done (fst st, st).

Definition update (f : NuageVsdClient -> NuageVsdClient) : M unit :=
  fun st => Done (tt, (f (fst st), snd st)).

Definition session (req : Request) : M (option Response) :=
  fun st => let r := serve req (snd st) in Done (fst r, (fst st, snd r)).

Notation "'run' x <- c ; k" := (bind c (fun x => k))
  (at level 10, x pattern, c at level 100, k at level 200).

(** [func VsdErrorResponse(resp, e) error] *)
Definition VsdErrorResponse (resp : Response) : error :=
  ErrUnexpectedStatus (status resp).

(** The body shared by [GetZoneID], [GetIngressAclTemplateID],
    [GetEgressAclTemplateID] and [GetNetworkMacroGroupID]: a [GET] filtered
    by name, then the name of [result[0]] compared with the one asked. *)
Definition get_id_by_name (ep : Endpoint) (name what : string) : M (result string) :=
  run r <- session (Get ep (FName name));
  match r with
  | None => ret (Err ErrTransport)
  | Some resp =>
      if status resp =? 200 then
        if String.eqb (body_Name (body resp)) name then ret (Ok (body_ID (body resp)))
        else if String.eqb (body_Name (body resp)) EmptyString then ret (Err (ErrNotFound what))
        else ret (Err (ErrFoundInstead (body_Name (body resp)) name))
      else ret (Err (VsdErrorResponse resp))
  end.

Definition GetZoneID (domainID name : string) : M (result string) :=
  get_id_by_name (EpZones domainID) name "Zone".

Definition GetIngressAclTemplateID (domainID name : string) : M (result string) :=
  get_id_by_name (EpIngressAclTemplates domainID) name "Ingress ACL Template".

Definition GetEgressAclTemplateID (domainID name : string) : M (result string) :=
  get_id_by_name (EpEgressAclTemplates domainID) name "Egress ACL Template".

Definition GetNetworkMacroGroupID (enterpriseID nmgName : string) : M (result string) :=
  get_id_by_name (EpNetworkMacroGroups enterpriseID) nmgName "Network Macro Group".

(** [func (nvsdc *NuageVsdClient) GetNetworkMacroID] *)
Definition GetNetworkMacroID (enterpriseID : string) (networkMacro : VsdNetworkMacro)
  : M (result string) :=
  run r <- session (Get (EpNetworkMacros enterpriseID)
                        (FMacro (nm_Name networkMacro) (nm_IPType networkMacro)
                                (nm_Address networkMacro) (nm_Netmask networkMacro)));
  match r with
  | None => ret (Err ErrTransport)
  | Some resp =>
      if status resp =? 200 then
        if String.eqb (body_Name (body resp)) (nm_Name networkMacro)
        then ret (Ok (body_ID (body resp)))
        else if String.eqb (body_Name (body resp)) EmptyString
        then ret (Err (ErrNotFound "Network Macro"))
        else ret (Err (ErrFoundInstead (body_Name (body resp)) (nm_Name networkMacro)))
      else ret (Err (VsdErrorResponse resp))
  end.

(** [func (nvsdc *NuageVsdClient) CreateNetworkMacro] *)
Definition CreateNetworkMacro (enterpriseID : string) (networkMacro : VsdNetworkMacro)
  : M (result string) :=
  run r <- session (Post (EpEnterpriseNetworks enterpriseID) (BNetworkMacro networkMacro));
  match r with
  | None => ret (Err ErrTransport)
  | Some resp =>
      if status resp =? 201 then ret (Ok (body_ID (body resp)))
      else if status resp =? 409 then
        run id <- GetNetworkMacroID enterpriseID networkMacro;
        match id with
        | Err e => ret (Err e)
        | Ok id => ret (Ok id)
        end
      else ret (Err (VsdErrorResponse resp))
  end.

(** The body shared by the delete methods: [204] is success. *)
Definition delete_resource (ep : Endpoint) : M (option error) :=
  run r <- session (Delete ep);
  match r with
  | None => ret (Some ErrTransport)
  | Some resp =>
      if status resp =? 204 then ret None
      else ret (Some (VsdErrorResponse resp))
  end.

Definition DeleteNetworkMacro (networkMacroID : string) : M (option error) :=
  delete_resource (EpEnterpriseNetwork networkMacroID).

Definition DeleteNetworkMacroGroup (networkMacroGroupID : string) : M (option error) :=
  delete_resource (EpNetworkMacroGroup networkMacroGroupID).

Definition DeleteZone (id : string) : M (option error) :=
  delete_resource (EpZone id).

Definition DeleteSubnet (id : string) : M (option error) :=
  delete_resource (EpSubnet id).

(** [func (nvsdc *NuageVsdClient) DeleteAclEntry(ingress bool, aclID string)] *)
Definition DeleteAclEntry (ingress : bool) (aclID : string) : M (option error) :=
  delete_resource (if ingress then EpIngressAclEntry aclID else EpEgressAclEntry aclID).

(** [func (nvsdc *NuageVsdClient) CreateZone] *)
Definition CreateZone (domainID name : string) : M (result string) :=
  let payload :=
    mkObject EmptyString name ("Auto-generated for OpenShift project " +:+ dquote +:+ name +:+ dquote) in
  run r <- session (Post (EpZones domainID) (BObject payload));
  match r with
  | None => ret (Err ErrTransport)
  | Some resp =>
      if status resp =? 201 then ret (Ok (body_ID (body resp)))
      else if status resp =? 409 then
        run id <- GetZoneID domainID name;
        match id with
        | Err e => ret (Err e)
        | Ok id => ret (Ok id)
        end
      else ret (Err (VsdErrorResponse resp))
  end.

(** [func (nvsdc *NuageVsdClient) GetSubnetID] *)
Definition GetSubnetID (zoneID : string) (subnet : IPv4Subnet) : M (result string) :=
  run r <- session (Get (EpSubnets zoneID) (FAddress (addr_String (Address subnet))));
  match r with
  | None => ret (Err ErrTransport)
  | Some resp =>
      if (status resp =? 200)
         && String.eqb (body_Address (body resp)) (addr_String (Address subnet))
      then ret (Ok (body_ID (body resp)))
      else ret (Err (VsdErrorResponse resp))
  end.

(** [func (nvsdc *NuageVsdClient) CreateSubnet] *)
Definition CreateSubnet (name zoneID : string) (subnet : IPv4Subnet) : M (result string) :=
  let payload :=
    mkVsdSubnet EmptyString "IPV4" (addr_String (Address subnet)) (addr_String (Netmask subnet))
                "Auto-generated subnet" name PATInherited in
  run r <- session (Post (EpSubnets zoneID) (BSubnet payload));
  match r with
  | None => ret (Err ErrTransport)
  | Some resp =>
      if status resp =? 201 then ret (Ok (body_ID (body resp)))
      else if status resp =? 409 then
        run id <- GetSubnetID zoneID subnet;
        match id with
        | Err e => ret (Err e)
        | Ok id => ret (Ok id)
        end
      else ret (Err (VsdErrorResponse resp))
  end.

(** [func (nvsdc *NuageVsdClient) CreateNetworkMacroGroup] *)
Definition CreateNetworkMacroGroup (enterpriseID zoneName : string) : M (result string) :=
  let payload :=
    mkObject EmptyString ("Service Group For Zone - " +:+ zoneName)
             ("Auto-generated network macro group for zone - " +:+ zoneName) in
  run r <- session (Post (EpNetworkMacroGroups enterpriseID) (BObject payload));
  match r with
  | None => ret (Err ErrTransport)
  | Some resp =>
      if status resp =? 201 then ret (Ok (body_ID (body resp)))
      else if status resp =? 409 then
        let nmgName := "Service Group For Zone - " +:+ zoneName in
        run id <- GetNetworkMacroGroupID enterpriseID nmgName;
        match id with
        | Err e => ret (Err e)
        | Ok id => ret (Ok id)
        end
      else ret (Err (VsdErrorResponse resp))
  end.

(** Modelled from the spec: [GetAclEntry] is called by the delete paths and
    by the conflict branch of [CreateAclEntry] but is not part of the
    listing.  It is the filtered [GET] of the create-or-get pattern (§4.2)
    on the entries of the template, the direction choosing the endpoint.
    §4.2 names no natural key for an ACL entry; the entry is selected by
    what its listed callers give: [DeleteSpecificZoneAcls] and
    [DeleteDefaultZoneAcls] pass an entry with the action, the description,
    the scope, the ether type, the location, the network, the policy state,
    the protocol and the reflexive flag filled in, and the id and the
    priority unset.  An empty answer is a nil entry without error. *)
Definition GetAclEntry (aclTemplateID : string) (ingress : bool) (aclEntry : VsdAclEntry)
  : M (result (option VsdAclEntry)) :=
  let ep := if ingress then EpIngressAclEntries aclTemplateID
            else EpEgressAclEntries aclTemplateID in
  run r <- session (Get ep (FAclEntry aclEntry));
  match r with
  | None => ret (Err ErrTransport)
  | Some resp =>
      if status resp =? 200 then
        match body resp with
        | BAclEntry e => ret (Ok (Some e))
        | _ => ret (Ok None)
        end
      else ret (Err (VsdErrorResponse resp))
  end.

(** Modelled from the spec: [CreateAclEntry] is called throughout but is
    not part of the listing.  §4.2: it takes the template id, the
    direction and the entry; the payload is sent as it is, the template id
    and the direction choose the URL; as every create it is create-or-get
    ([201]: the new id; [409]: the id of the existing entry; any other
    status is an error). *)
Definition CreateAclEntry (aclTemplateID : string) (ingress : bool) (aclEntry : VsdAclEntry)
  : M (result string) :=
  let ep := if ingress then EpIngressAclEntries aclTemplateID
            else EpEgressAclEntries aclTemplateID in
  run r <- session (Post ep (BAclEntry aclEntry));
  match r with
  | None => ret (Err ErrTransport)
  | Some resp =>
      if status resp =? 201 then ret (Ok (body_ID (body resp)))
      else if status resp =? 409 then
        run found <- GetAclEntry aclTemplateID ingress aclEntry;
        match found with
        | Err e => ret (Err e)
        | Ok None => ret (Err (ErrNotFound "ACL entry"))
        | Ok (Some e) => ret (Ok (acl_ID e))
        end
      else ret (Err (VsdErrorResponse resp))
  end.

(** The entry both [CreateIngressAclEntries] and [CreateEgressAclEntries]
    start from, and the same entry after the five assignments that turn it
    into the drop rule. *)
Definition baseline_forward_entry : VsdAclEntry :=
  mkAclEntry EmptyString "FORWARD" "Allow Intra-Zone Traffic" "ENTERPRISE" "0x800"
             EmptyString "ANY" EmptyString "ENDPOINT_ZONE" "LIVE" 0 "ANY" false.

Definition baseline_drop_entry : VsdAclEntry :=
  mkAclEntry EmptyString "DROP" "Drop intra-domain traffic" "ENTERPRISE" "0x800"
             EmptyString "ANY" EmptyString "ENDPOINT_DOMAIN" "LIVE" 1000000000 "ANY" false.

(** [func (nvsdc *NuageVsdClient) CreateIngressAclEntries() error] *)
Definition CreateIngressAclEntries : M (option error) :=
  run c <- client;
  run r <- CreateAclEntry (ingressAclTemplateID c) true baseline_forward_entry;
  match r with
  | Err e => ret (Some e)
  | Ok _ =>
      run c <- client;
      run _ <- CreateAclEntry (ingressAclTemplateID c) true baseline_drop_entry;
      ret None
  end.

(** [func (nvsdc *NuageVsdClient) CreateEgressAclEntries() error] *)
Definition CreateEgressAclEntries : M (option error) :=
  run c <- client;
  run r <- CreateAclEntry (egressAclTemplateID c) false baseline_forward_entry;
  match r with
  | Err e => ret (Some e)
  | Ok _ =>
      run c <- client;
      run _ <- CreateAclEntry (ingressAclTemplateID c) false baseline_drop_entry;
      ret None
  end.

(** [func (nvsdc *NuageVsdClient) CreateIngressAclTemplate] *)
Definition CreateIngressAclTemplate (domainID : string) : M (result string) :=
  let payload := mkAclTemplate "Auto-generated Ingress Policies" true true in
  run r <- session (Post (EpIngressAclTemplates domainID) (BAclTemplate payload));
  match r with
  | None => ret (Err ErrTransport)
  | Some resp =>
      if status resp =? 201 then
        run _ <- update (set_ingressAclTemplateID (body_ID (body resp)));
        run err <- CreateIngressAclEntries;
        match err with
        | Some e => ret (Err e)
        | None => run c <- client; ret (Ok (ingressAclTemplateID c))
        end
      else if status resp =? 409 then
        run id <- GetIngressAclTemplateID domainID (tpl_Name payload);
        match id with
        | Err e => run _ <- update (set_ingressAclTemplateID EmptyString); ret (Err e)
        | Ok id =>
            run _ <- update (set_ingressAclTemplateID id);
            run err <- CreateIngressAclEntries;
            match err with
            | Some e => ret (Err e)
            | None => run c <- client; ret (Ok (ingressAclTemplateID c))
            end
        end
      else ret (Err (VsdErrorResponse resp))
  end.

(** [func (nvsdc *NuageVsdClient) CreateEgressAclTemplate] *)
Definition CreateEgressAclTemplate (domainID : string) : M (result string) :=
  let payload := mkAclTemplate "Auto-generated Egress Policies" true true in
  run r <- session (Post (EpEgressAclTemplates domainID) (BAclTemplate payload));
  match r with
  | None => ret (Err ErrTransport)
  | Some resp =>
      if status resp =? 201 then
        run _ <- update (set_egressAclTemplateID (body_ID (body resp)));
        run err <- CreateEgressAclEntries;
        match err with
        | Some e => ret (Err e)
        | None => run c <- client; ret (Ok (egressAclTemplateID c))
        end
      else if status resp =? 409 then
        run id <- GetEgressAclTemplateID domainID (tpl_Name payload);
        match id with
        | Err e => run _ <- update (set_egressAclTemplateID EmptyString); ret (Err e)
        | Ok id =>
            run _ <- update (set_egressAclTemplateID id);
            run err <- CreateEgressAclEntries;
            match err with
            | Some e => ret (Err e)
            | None => run c <- client; ret (Ok (egressAclTemplateID c))
            end
        end
      else ret (Err (ErrUnexpectedStatus (status resp)))
  end.

(** [func (nvsdc *NuageVsdClient) NextAvailablePriority() int]: the value
    is read, then the deferred increment runs. *)
Definition IncrementNextAvailablePriority : M unit :=
  update (fun c => set_nextAvailablePriority (wrap_int (nextAvailablePriority c + 1)) c).

Definition SetNextAvailablePriority (val : Z) : M unit :=
  update (set_nextAvailablePriority val).

Definition NextAvailablePriority : M Z :=
  run c <- client;
  let v := nextAvailablePriority c in
  run _ <- IncrementNextAvailablePriority;
  ret v.

(** [if nsd, exists := nvsdc.namespaces[zoneName]; exists { nsd.NetworkMacroGroupID = nmgid }
     else { nvsdc.namespaces[zoneName] = NamespaceData{...} }]:
    [nsd] is a copy of the stored record, so the first branch leaves the map
    as it is. *)
Definition record_macro_group (zoneName zoneID nmgid : string) : M unit :=
  update (fun c =>
    match namespaces c !! zoneName with
    | Some nsd => c
    | None => set_namespaces (<[zoneName := mkNamespaceData zoneID nmgid ∅]> (namespaces c)) c
    end).

(** [nvsdc.namespaces[name].ZoneID], the zero value when [name] is absent. *)
Definition ns_ZoneID (c : NuageVsdClient) (name : string) : string :=
  match namespaces c !! name with Some nsd => ZoneID nsd | None => EmptyString end.

(** [nvsdc.namespaces[name].NetworkMacroGroupID] *)
Definition ns_NetworkMacroGroupID (c : NuageVsdClient) (name : string) : string :=
  match namespaces c !! name with
  | Some nsd => NetworkMacroGroupID nsd
  | None => EmptyString
  end.

(** [func (nvsdc *NuageVsdClient) CreateDefaultZoneAcls(zoneID string) error] *)
Definition CreateDefaultZoneAcls (zoneID : string) : M (option error) :=
  run c <- client;
  run r <- CreateNetworkMacroGroup (enterpriseID c) "default";
  match r with
  | Err e => ret (Some e)
  | Ok nmgid =>
      run _ <- record_macro_group "default" zoneID nmgid;
      let aclEntry :=
        mkAclEntry EmptyString "FORWARD" "Allow Traffic Between All Zones and Default Zone"
                   "ENTERPRISE" "0x800" EmptyString "ANY" nmgid "NETWORK_MACRO_GROUP"
                   "LIVE" 1 "ANY" false in
      run c <- client;
      run r1 <- CreateAclEntry (ingressAclTemplateID c) true aclEntry;
      match r1 with
      | Err e => ret (Some e)
      | Ok _ =>
          run c <- client;
          run r2 <- CreateAclEntry (egressAclTemplateID c) false aclEntry;
          match r2 with
          | Err e => ret (Some e)
          | Ok _ => ret None
          end
      end
  end.

(** [func (nvsdc *NuageVsdClient) CreateSpecificZoneAcls(zoneName, zoneID string) error] *)
Definition CreateSpecificZoneAcls (zoneName zoneID : string) : M (option error) :=
  run c <- client;
  run r <- CreateNetworkMacroGroup (enterpriseID c) zoneName;
  match r with
  | Err e => ret (Some e)
  | Ok nmgid =>
      run _ <- record_macro_group zoneName zoneID nmgid;
      run c <- client;
      let locationID := ns_ZoneID c zoneName in
      run next <- NextAvailablePriority;
      let aclEntry :=
        mkAclEntry EmptyString "FORWARD"
                   ("Allow Traffic Between Zone - " +:+ zoneName +:+ " And Its Services")
                   "ENTERPRISE" "0x800" locationID "ZONE" nmgid "NETWORK_MACRO_GROUP"
                   "LIVE" (wrap_int (300 + next)) "ANY" false in
      run c <- client;
      run r1 <- CreateAclEntry (ingressAclTemplateID c) true aclEntry;
      match r1 with
      | Err e => ret (Some e)
      | Ok _ =>
          run _ <- SetNextAvailablePriority (wrap_int (acl_Priority aclEntry + 1));
          run c <- client;
          run r2 <- CreateAclEntry (egressAclTemplateID c) false aclEntry;
          match r2 with
          | Err e => ret (Some e)
          | Ok _ =>
              run _ <- SetNextAvailablePriority (wrap_int (acl_Priority aclEntry + 1));
              ret None
          end
      end
  end.

(** The two lookups and deletes shared by [DeleteSpecificZoneAcls] and
    [DeleteDefaultZoneAcls]: [if acl, err := GetAclEntry(..); err == nil &&
    acl != nil { DeleteAclEntry } else { return err }].  [Some r] is the
    early return of the caller. *)
Definition delete_found_entry (templateID : string) (ingress : bool) (aclEntry : VsdAclEntry)
  : M (option (option error)) :=
  run found <- GetAclEntry templateID ingress aclEntry;
  match found with
  | Ok (Some acl) =>
      run err <- DeleteAclEntry ingress (acl_ID acl);
      match err with
      | Some e => ret (Some (Some e))
      | None => ret None
      end
  | Ok None => ret (Some None)
  | Err e => ret (Some (Some e))
  end.

Definition delete_zone_acls (aclEntry : VsdAclEntry) (zoneName : string) : M (option error) :=
  run c <- client;
  run early <- delete_found_entry (ingressAclTemplateID c) true aclEntry;
  match early with
  | Some r => ret r
  | None =>
      run c <- client;
      run early <- delete_found_entry (egressAclTemplateID c) false aclEntry;
      match early with
      | Some r => ret r
      | None =>
          run c <- client;
          if negb (String.eqb (ns_NetworkMacroGroupID c zoneName) EmptyString) then
            run err <- DeleteNetworkMacroGroup (ns_NetworkMacroGroupID c zoneName);
            match err with
            | Some e => ret (Some e)
            | None => ret None  (* [nsd.NetworkMacroGroupID = ""] on a copy *)
            end
          else ret None
      end
  end.

(** [func (nvsdc *NuageVsdClient) DeleteSpecificZoneAcls(zoneName string) error] *)
Definition DeleteSpecificZoneAcls (zoneName : string) : M (option error) :=
  run c <- client;
  let aclEntry :=
    mkAclEntry EmptyString "FORWARD"
               ("Allow Traffic Between Zone - " +:+ zoneName +:+ " And Its Services")
               "ENTERPRISE" "0x800" (ns_ZoneID c zoneName) "ZONE"
               (ns_NetworkMacroGroupID c zoneName) "NETWORK_MACRO_GROUP"
               "LIVE" 0 "ANY" false in
  delete_zone_acls aclEntry zoneName.

(** [func (nvsdc *NuageVsdClient) DeleteDefaultZoneAcls(zoneID string) error] *)
Definition DeleteDefaultZoneAcls (zoneID : string) : M (option error) :=
  run c <- client;
  let aclEntry :=
    mkAclEntry EmptyString "FORWARD" "Allow Traffic Between All Zones and Default Zone"
               "ENTERPRISE" "0x800" EmptyString "ANY"
               (ns_NetworkMacroGroupID c "default") "NETWORK_MACRO_GROUP"
               "LIVE" 0 "ANY" false in
  delete_zone_acls aclEntry "default".

(** A call on [nvsdc.pool]. *)
Definition on_pool {A : Type}
    (f : list (list IPv4Subnet) -> exec (A * list (list IPv4Subnet))) : M A :=
  fun st =>
    do r <- f (pool (fst st));
    Done (fst r, (set_pool (snd r) (fst st), snd st)).

(** The branch shared by both paths of an [Added] event and the two ACL
    variants: the zone named "default" gets the default-zone ACLs. *)
Definition create_zone_acls (name zoneID : string) : M (option error) :=
  if String.eqb name "default" then CreateDefaultZoneAcls zoneID
  else CreateSpecificZoneAcls name zoneID.

Definition delete_zone_acls_of (name zoneID : string) : M (option error) :=
  if String.eqb name "default" then DeleteDefaultZoneAcls zoneID
  else DeleteSpecificZoneAcls name.

(** The loop of the [Deleted] branch over the subnets of the zone: failures
    of [DeleteSubnet] and of [pool.Free] are warnings. *)
Fixpoint delete_subnets (l : SubnetList) : M unit :=
  match l with
  | [] => ret tt
  | (subnetID, subnet) :: next =>
      run _ <- DeleteSubnet subnetID;
      run _ <- on_pool (fun p => Free p subnet);
      delete_subnets next
  end.

(** [func (nvsdc *NuageVsdClient) HandleNsEvent(nsEvent *api.NamespaceEvent) error] *)
Definition HandleNsEvent (nsEvent : NamespaceEvent) : M (option error) :=
  let name := ns_Name nsEvent in
  match ns_Type nsEvent with
  | Added =>
      run c <- client;
      match namespaces c !! name with
      | None =>
          run z <- CreateZone (domainID c) name;
          match z with
          | Err e => ret (Some e)
          | Ok zoneID =>
              run c <- client;
              match zones c with
              | None => panic  (* assignment to an entry of a nil map *)
              | Some zs =>
                  run _ <- update (set_zones (Some (<[name := zoneID]> zs)));
                  run c <- client;
                  run a <- on_pool (fun p => Alloc p (wrap_int (32 - subnetSize c)));
                  match a with
                  | Err e => ret (Some e)
                  | Ok subnet =>
                      run s <- CreateSubnet (name +:+ "-0") zoneID subnet;
                      match s with
                      | Err e =>
                          run _ <- on_pool (fun p => Free p subnet);
                          ret (Some e)
                      | Ok subnetID =>
                          run _ <- update (fun c =>
                            set_subnets (<[zoneID := [(subnetID, subnet)]]> (subnets c)) c);
                          run err <- create_zone_acls name zoneID;
                          match err with
                          | Some e => ret (Some e)
                          | None => ret None
                          end
                      end
                  end
              end
          end
      | Some _ =>
          run z <- GetZoneID (domainID c) name;
          match z with
          | Err e => ret (Some e)
          | Ok id =>
              if String.eqb id EmptyString then ret (Some ErrInvalidZoneID)
              else
                run err <- create_zone_acls name id;
                match err with
                | Some e => ret (Some e)
                | None =>
                    run _ <- update (fun c =>
                      set_namespaces
                        (<[name := mkNamespaceData id EmptyString ∅]> (namespaces c)) c);
                    ret None
                end
          end
      end
  | Deleted =>
      run c <- client;
      match namespaces c !! name with
      | Some zone =>
          run err <- delete_zone_acls_of name (ZoneID zone);
          match err with
          | Some e => ret (Some e)
          | None =>
              run c <- client;
              run _ <- match subnets c !! ZoneID zone with
                       | Some subnetsHead =>
                           run _ <- delete_subnets subnetsHead;
                           update (fun c => set_subnets (delete (ZoneID zone) (subnets c)) c)
                       | None => ret tt
                       end;
              run _ <- update (fun c => set_namespaces (delete name (namespaces c)) c);
              DeleteZone (ZoneID zone)
          end
      | None =>
          run z <- GetZoneID (domainID c) name;
          match z with
          | Err e => ret (Some e)
          | Ok id =>
              if String.eqb id EmptyString then ret None
              else
                run err <- delete_zone_acls_of name id;
                match err with
                | Some e => ret (Some e)
                | None => DeleteZone id
                end
          end
      end
  end.

(** [func (nvsdc *NuageVsdClient) HandleServiceEvent(serviceEvent *api.ServiceEvent) error] *)
Definition HandleServiceEvent (serviceEvent : ServiceEvent) : M (option error) :=
  let ann := svc_NuageAnnotations serviceEvent in
  match svc_Type serviceEvent with
  | Added =>
      let zone := svc_Namespace serviceEvent in
      run c <- client;
      (* the macro group named by the annotations, or [Err] for the early return *)
      run g <- match ann !! "network-macro-group.id" with
               | Some nmgID => ret (Ok nmgID)
               | None =>
                   match ann !! "network-macro-group.name" with
                   | Some nmgName =>
                       run r <- GetNetworkMacroGroupID (enterpriseID c) nmgName;
                       match r with
                       | Err _ => ret (Err ErrIncorrectAnnotation)
                       | Ok id => ret (Ok id)
                       end
                   | None => ret (Ok EmptyString)
                   end
               end;
      match g with
      | Err e => ret (Some e)
      | Ok nmgID =>
          run c <- client;
          let verdict :=
            match ann !! "zone" with
            | Some v =>
                match namespaces c !! v with
                | Some _ =>
                    if negb (String.eqb v (svc_Namespace serviceEvent))
                    then Some ErrIncorrectAnnotation else None
                | None =>
                    if String.eqb nmgID EmptyString
                    then Some ErrInsufficientAnnotation else None
                end
            | None => None
            end in
          match verdict with
          | Some e => ret (Some e)
          | None =>
              let nmgID :=
                if String.eqb nmgID EmptyString then ns_NetworkMacroGroupID c zone
                else nmgID in
              let networkMacro :=
                mkNetworkMacro EmptyString
                  ("NetworkMacro for service: " +:+ svc_Namespace serviceEvent +:+ "/"
                     +:+ svc_Name serviceEvent)
                  "IPV4" (svc_ClusterIP serviceEvent) "255.255.255.255" in
              run m <- CreateNetworkMacro (enterpriseID c) networkMacro;
              match m with
              | Err _ => ret None
              | Ok networkMacroID =>
                  run c <- client;
                  match namespaces c !! svc_Namespace serviceEvent with
                  | None => panic  (* assignment to an entry of a nil map *)
                  | Some nsd =>
                      run _ <- update (fun c =>
                        set_namespaces
                          (<[svc_Namespace serviceEvent :=
                               mkNamespaceData (ZoneID nsd) (NetworkMacroGroupID nsd)
                                 (<[svc_Name serviceEvent := networkMacroID]>
                                    (NetworkMacros nsd))]> (namespaces c)) c);
                      run r <- session (Put (EpGroupMembers nmgID) [networkMacroID]);
                      match r with
                      | None => ret (Some ErrTransport)
                      | Some resp =>
                          if status resp =? 204 then ret None
                          else if status resp =? 409 then ret None
                          else ret (Some (VsdErrorResponse resp))
                      end
                  end
              end
          end
      end
  | Deleted =>
      let zone := svc_Namespace serviceEvent in
      run c <- client;
      match namespaces c !! zone with
      | Some nsd =>
          match NetworkMacros nsd !! svc_Name serviceEvent with
          | Some nmID =>
              run err <- DeleteNetworkMacro nmID;
              match err with
              | Some e => ret (Some e)
              | None =>
                  (* [delete(nvsdc.namespaces[zone].NetworkMacros, nmID)] *)
                  run _ <- update (fun c =>
                    match namespaces c !! zone with
                    | Some nsd =>
                        set_namespaces
                          (<[zone := mkNamespaceData (ZoneID nsd) (NetworkMacroGroupID nsd)
                                       (delete nmID (NetworkMacros nsd))]> (namespaces c)) c
                    | None => c
                    end);
                  ret None
              end
          | None => ret None
          end
      | None => ret None
      end
  end.

(** The last two steps of [Init]: the two ACL templates, any failure being
    fatal ([glog.Fatal]). *)
Definition Init_acl_templates : M unit :=
  run c <- client;
  run r <- CreateIngressAclTemplate (domainID c);
  match r with
  | Err _ => fun _ => Exit
  | Ok _ =>
      run c <- client;
      run r <- CreateEgressAclTemplate (domainID c);
      match r with
      | Err _ => fun _ => Exit
      | Ok _ => ret tt
      end
  end.

End Client.

(** ** A VSD to run the client against

    Modelled from the spec: the SDN REST API is an external collaborator of
    which only the contract is given (§4.2, §4.3, §6).  [POST] on a
    collection answers [201] with the new object, or [409] when an object
    with the same natural key is in the collection; a filtered [GET] answers
    [200] with the first match, or with a zero-valued element; [DELETE]
    answers [204]; [PUT] on the members of a group answers [204], or [409]
    when already a member; a path that names no object answers [404].
    Natural keys: the name for zones, templates and macro groups, the
    address for subnets within a zone, the tuple (name, ipType, address,
    netmask) for network macros.  For ACL entries §4.2 lists no key; an
    entry is told from another of its template by the fields the listed
    delete paths look it up by, all but the id and the priority (see
    [GetAclEntry]). *)

Global Instance Endpoint_eq_dec : EqDecision Endpoint.
Proof. solve_decision. Defined.

Record Resource : Type := mkResource {
  res_coll : Endpoint;   (* the collection the object was posted to *)
  res_id : string;
  res_body : Body }.

Record VsdStore : Type := mkVsd {
  vsd_next : nat;                       (* source of fresh identifiers *)
  vsd_enterprises : list string;        (* enterprises and domains exist *)
  vsd_domains : list string;            (*   before the first request   *)
  vsd_resources : list Resource;
  vsd_members : list (string * string)  (* (macro group, network macro) *) }.

Definition string_in (s : string) (l : list string) : bool :=
  existsb (String.eqb s) l.

(** Macros are posted to [enterprisenetworks] and listed at [networkmacros]. *)
Definition coll_of (ep : Endpoint) : Endpoint :=
  match ep with
  | EpNetworkMacros e => EpEnterpriseNetworks e
  | _ => ep
  end.

Definition has_object (store : VsdStore) (kind : Endpoint -> bool) (id : string) : bool :=
  existsb (fun r => kind (res_coll r) && String.eqb (res_id r) id) (vsd_resources store).

Definition is_zones (ep : Endpoint) : bool :=
  match ep with EpZones _ => true | _ => false end.
Definition is_subnets (ep : Endpoint) : bool :=
  match ep with EpSubnets _ => true | _ => false end.
Definition is_ingress_templates (ep : Endpoint) : bool :=
  match ep with EpIngressAclTemplates _ => true | _ => false end.
Definition is_egress_templates (ep : Endpoint) : bool :=
  match ep with EpEgressAclTemplates _ => true | _ => false end.
Definition is_ingress_entries (ep : Endpoint) : bool :=
  match ep with EpIngressAclEntries _ => true | _ => false end.
Definition is_egress_entries (ep : Endpoint) : bool :=
  match ep with EpEgressAclEntries _ => true | _ => false end.
Definition is_macro_groups (ep : Endpoint) : bool :=
  match ep with EpNetworkMacroGroups _ => true | _ => false end.
Definition is_macros (ep : Endpoint) : bool :=
  match ep with EpEnterpriseNetworks _ => true | _ => false end.

(** The collection exists: its parent object does. *)
Definition collection_exists (store : VsdStore) (ep : Endpoint) : bool :=
  match ep with
  | EpZones d | EpIngressAclTemplates d | EpEgressAclTemplates d =>
      string_in d (vsd_domains store)
  | EpNetworkMacroGroups e | EpEnterpriseNetworks e | EpNetworkMacros e =>
      string_in e (vsd_enterprises store)
  | EpSubnets z => has_object store is_zones z
  | EpIngressAclEntries t => has_object store is_ingress_templates t
  | EpEgressAclEntries t => has_object store is_egress_templates t
  | _ => false
  end.

(** Two ACL entries that agree on every field but the id and the priority:
    what the listed delete paths look an entry up by (see [GetAclEntry]). *)
Definition same_entry (x y : VsdAclEntry) : bool :=
  String.eqb (acl_Action x) (acl_Action y)
  && String.eqb (acl_Description x) (acl_Description y)
  && String.eqb (acl_EntityScope x) (acl_EntityScope y)
  && String.eqb (acl_EtherType x) (acl_EtherType y)
  && String.eqb (acl_LocationType x) (acl_LocationType y)
  && String.eqb (acl_NetworkType x) (acl_NetworkType y)
  && String.eqb (acl_PolicyState x) (acl_PolicyState y)
  && String.eqb (acl_Protocol x) (acl_Protocol y)
  && Bool.eqb (acl_Reflexive x) (acl_Reflexive y)
  && String.eqb (acl_LocationID x) (acl_LocationID y)
  && String.eqb (acl_NetworkID x) (acl_NetworkID y).

(** The natural keys of §4.2; for an ACL entry, which the table of §4.2 does
    not list, the fields [GetAclEntry] selects it by. *)
Definition same_key (a b : Body) : bool :=
  match a, b with
  | BSubnet x, BSubnet y => String.eqb (sub_Address x) (sub_Address y)
  | BAclEntry x, BAclEntry y => same_entry x y
  | BNetworkMacro x, BNetworkMacro y =>
      String.eqb (nm_Name x) (nm_Name y) && String.eqb (nm_IPType x) (nm_IPType y)
      && String.eqb (nm_Address x) (nm_Address y) && String.eqb (nm_Netmask x) (nm_Netmask y)
  | (BObject _ | BAclTemplate _), (BObject _ | BAclTemplate _) =>
      String.eqb (body_Name a) (body_Name b)
  | _, _ => false
  end.

Definition matches (f : Filter) (b : Body) : bool :=
  match f, b with
  | FName n, _ => String.eqb (body_Name b) n
  | FAddress a, _ => String.eqb (body_Address b) a
  | FMacro n t a m, BNetworkMacro x =>
      String.eqb (nm_Name x) n && String.eqb (nm_IPType x) t
      && String.eqb (nm_Address x) a && String.eqb (nm_Netmask x) m
  | FAclEntry e, BAclEntry x => same_entry x e
  | _, _ => false
  end.

(** The stored object: the payload with its identifier. *)
Definition with_id (id : string) (b : Body) : Body :=
  match b with
  | BNone => BNone
  | BObject o => BObject (mkObject id (obj_Name o) (obj_Description o))
  | BAclTemplate t => BObject (mkObject id (tpl_Name t) EmptyString)
  | BAclEntry e =>
      BAclEntry (mkAclEntry id (acl_Action e) (acl_Description e) (acl_EntityScope e)
                   (acl_EtherType e) (acl_LocationID e) (acl_LocationType e) (acl_NetworkID e)
                   (acl_NetworkType e) (acl_PolicyState e) (acl_Priority e) (acl_Protocol e)
                   (acl_Reflexive e))
  | BSubnet s =>
      BSubnet (mkVsdSubnet id (sub_IPType s) (sub_Address s) (sub_Netmask s)
                 (sub_Description s) (sub_Name s) (sub_PATEnabled s))
  | BNetworkMacro m =>
      BNetworkMacro (mkNetworkMacro id (nm_Name m) (nm_IPType m) (nm_Address m) (nm_Netmask m))
  end.

Definition in_collection (ep : Endpoint) (r : Resource) : bool :=
  bool_decide (res_coll r = coll_of ep).

(** The object a single-object path names, by kind of collection. *)
Definition object_of (ep : Endpoint) : option ((Endpoint -> bool) * string) :=
  match ep with
  | EpZone id => Some (is_zones, id)
  | EpSubnet id => Some (is_subnets, id)
  | EpIngressAclEntry id => Some (is_ingress_entries, id)
  | EpEgressAclEntry id => Some (is_egress_entries, id)
  | EpNetworkMacroGroup id => Some (is_macro_groups, id)
  | EpEnterpriseNetwork id => Some (is_macros, id)
  | _ => None
  end.

(** The object a collection hangs under, for the cascade of a delete. *)
Definition parent_of (ep : Endpoint) : string :=
  match ep with
  | EpSubnets z => z
  | EpIngressAclEntries t | EpEgressAclEntries t => t
  | _ => EmptyString
  end.

Definition vsd_serve (req : Request) (store : VsdStore) : option Response * VsdStore :=
  match req with
  | Post ep payload =>
      if negb (collection_exists store ep) then (Some (mkResponse 404 BNone), store)
      else if existsb (fun r => in_collection ep r && same_key (res_body r) payload)
                      (vsd_resources store)
      then (Some (mkResponse 409 BNone), store)
      else
        let id := "id-" +:+ pretty (vsd_next store) in
        let obj := with_id id payload in
        (Some (mkResponse 201 obj),
         mkVsd (S (vsd_next store)) (vsd_enterprises store) (vsd_domains store)
               (vsd_resources store ++ [mkResource (coll_of ep) id obj])
               (vsd_members store))
  | Get ep f =>
      if negb (collection_exists store ep) then (Some (mkResponse 404 BNone), store)
      else
        match List.find (fun r => in_collection ep r && matches f (res_body r))
                        (vsd_resources store) with
        | Some r => (Some (mkResponse 200 (res_body r)), store)
        | None => (Some (mkResponse 200 BNone), store)
        end
  | Put ep ids =>
      match ep with
      | EpGroupMembers g =>
          if negb (has_object store is_macro_groups g) then (Some (mkResponse 404 BNone), store)
          else if forallb (fun id => existsb (fun m => String.eqb (fst m) g
                                                       && String.eqb (snd m) id)
                                             (vsd_members store)) ids
          then (Some (mkResponse 409 BNone), store)
          else (Some (mkResponse 204 BNone),
                mkVsd (vsd_next store) (vsd_enterprises store) (vsd_domains store)
                      (vsd_resources store)
                      (vsd_members store ++ List.map (fun id => (g, id)) ids))
      | _ => (Some (mkResponse 404 BNone), store)
      end
  | Delete ep =>
      match object_of ep with
      | Some (kind, id) =>
          if negb (has_object store kind id) then (Some (mkResponse 404 BNone), store)
          else (Some (mkResponse 204 BNone),
                mkVsd (vsd_next store) (vsd_enterprises store) (vsd_domains store)
                      (List.filter
                         (fun r => negb (String.eqb (res_id r) id)
                                   && negb (String.eqb (parent_of (res_coll r)) id))
                         (vsd_resources store))
                      (List.filter
                         (fun m => negb (String.eqb (fst m) id) && negb (String.eqb (snd m) id))
                         (vsd_members store)))
      | None => (Some (mkResponse 404 BNone), store)
      end
  end.

(** The objects of one kind of collection, and the entries of a template. *)
Definition objects_of (store : VsdStore) (kind : Endpoint -> bool) : list Body :=
  List.map res_body (List.filter (fun r => kind (res_coll r)) (vsd_resources store)).

Definition entries_of (store : VsdStore) (coll : Endpoint) : list VsdAclEntry :=
  omap (fun r => if bool_decide (res_coll r = coll)
                 then match res_body r with BAclEntry e => Some e | _ => None end
                 else None)
       (vsd_resources store).

(** ** Scenarios of the reconciler *)

(** The client and the VSD as [Init] has them before its last two steps:
    the cluster block freed into the pool, [namespaces] and [subnets] made,
    the priority counter at 0, the enterprise and the domain created. *)
Definition vsd_initial : VsdStore := mkVsd 0 ["enterprise-1"] ["domain-1"] [] [].

Definition client_initial (ipPool : IPv4Subnet) (subnetLength : Z) : exec NuageVsdClient :=
  do r <- Free empty_pool ipPool;
  Done (mkClient "enterprise-1" "domain-1" EmptyString EmptyString 0 ∅ None ∅
                 (snd r) subnetLength).

(** Bootstrap with cluster CIDR 10.128.0.0/14 and 8-bit subnets. *)
Definition bootstrap : exec (NuageVsdClient * VsdStore) :=
  do c <- client_initial (mkSubnet (mkAddr 10 128 0 0) 14) 8;
  do r <- Init_acl_templates vsd_serve (c, vsd_initial);
  Done (snd r).

(** The bootstrapped client with the [zones] map made.  The listed code
    never makes it, and from [bootstrap] the first [Added] event of an
    untracked namespace panics; this is the state from which a namespace
    and a service can become tracked at all, for the statements whose
    premise is a tracked namespace. *)
Definition bootstrap_with_zones : exec (NuageVsdClient * VsdStore) :=
  do st <- bootstrap;
  Done (set_zones (Some ∅) (fst st), snd st).

(** The event of the service alpha/web with no annotation. *)
Definition web_event (t : EventType) : ServiceEvent :=
  mkServiceEvent t "alpha" "web" "172.30.1.5" ∅.

(** A client with nothing tracked. *)
Definition client_blank : NuageVsdClient :=
  mkClient "enterprise-1" "domain-1" EmptyString EmptyString 0 ∅ None ∅ empty_pool 8.

(** The block of [s] with the host bits cleared: its address under its
    netmask. *)
Definition network_of (s : IPv4Subnet) : IPv4Subnet :=
  let m := Netmask s in
  mkSubnet (mkAddr (Z.land (oct0 (Address s)) (oct0 m)) (Z.land (oct1 (Address s)) (oct1 m))
                   (Z.land (oct2 (Address s)) (oct2 m)) (Z.land (oct3 (Address s)) (oct3 m)))
           (CIDRMask s).

(** The invariant of the pool: bucket [k] holds subnets of mask length [k]. *)
Definition buckets_by_mask (pool : list (list IPv4Subnet)) : Prop :=
  forall (k : nat) (l : list IPv4Subnet),
    pool !! k = Some l -> Forall (fun s => CIDRMask s = Z.of_nat k) l.

(** A method that only talks to the VSD: whenever it returns, the client is
    as it was. *)
Definition keeps_client {Vsd A : Type} (m : @M Vsd A) : Prop :=
  forall c v r c' v', m (c, v) = Done (r, (c', v')) -> c' = c.

(** States of the scenarios, evaluated: after bootstrap (with the [zones]
    map made), after [Added "alpha"], and after the service alpha/web is
    added. *)
Definition state_of (r : exec (NuageVsdClient * VsdStore)) : NuageVsdClient * VsdStore :=
  match r with
  | Done st => st
  | _ => (client_blank, vsd_initial)
  end.

Definition bootstrapped : NuageVsdClient * VsdStore :=
  Eval vm_compute in state_of bootstrap_with_zones.

Definition alpha_tracked : NuageVsdClient * VsdStore :=
  Eval vm_compute in
    state_of (do r <- HandleNsEvent vsd_serve "INHERITED" (mkNsEvent Added "alpha") bootstrapped;
              Done (snd r)).

Definition alpha_web_tracked : NuageVsdClient * VsdStore :=
  Eval vm_compute in
    state_of (do r <- HandleServiceEvent vsd_serve (web_event Added) alpha_tracked;
              Done (snd r)).

(** A VSD that gives one answer to every request. *)
Definition canned (resp : Response) : Request -> unit -> option Response * unit :=
  fun _ u => (Some resp, u).
(** * Properties of the subnet pool *)

(** ** Machine arithmetic on small values *)

Lemma wrap_int_small z : - 2 ^ 63 <= z < 2 ^ 63 -> wrap_int z = z.
Proof. intros H. unfold wrap_int. rewrite Z.mod_small; lia. Qed.

Lemma wrap_uint_small z : 0 <= z < 2 ^ 64 -> wrap_uint z = z.
Proof. intros H. unfold wrap_uint. apply Z.mod_small. lia. Qed.

Lemma wrap_uint8_range z : 0 <= wrap_uint8 z < 256.
Proof. unfold wrap_uint8. apply Z.mod_pos_bound. lia. Qed.

Lemma addr_get_in_range addr i : 0 <= i <= 3 -> exists v, addr_get addr i = Done v.
Proof.
  intros H. unfold addr_get.
  assert (i = 0 \/ i = 1 \/ i = 2 \/ i = 3) as [-> | [-> | [-> | ->]]] by lia;
    simpl; eauto.
Qed.

Lemma addr_get_out_of_range addr i : i < 0 \/ 3 < i -> addr_get addr i = Panic.
Proof.
  intros H. unfold addr_get.
  destruct (Z.eqb_spec i 0); [lia |]. destruct (Z.eqb_spec i 1); [lia |].
  destruct (Z.eqb_spec i 2); [lia |]. destruct (Z.eqb_spec i 3); [lia |].
  reflexivity.
Qed.

(** ** [Compare] *)

(** On subnets of one mask length below 32, [Compare] returns a [uint8]
    difference: it is never negative. *)
Lemma Compare_same_mask_nonneg a b :
  CIDRMask a = CIDRMask b -> 0 <= CIDRMask a < 32 ->
  exists n, Compare a b = Done n /\ 0 <= n < 256.
Proof.
  intros Hm Hr. unfold Compare. rewrite <- Hm, Z.sub_diag. simpl negb. cbv iota.
  change (wrap_int 0 =? 0) with true. simpl negb. cbv iota.
  assert (0 <= CIDRMask a ÷ 8 <= 3) as Hi.
  { split; [apply Z.quot_pos; lia |].
    apply Z.lt_succ_r. apply Z.quot_lt_upper_bound; lia. }
  destruct (addr_get_in_range (Address a) _ Hi) as [x ->].
  destruct (addr_get_in_range (Address b) _ Hi) as [y ->].
  simpl. eexists. split; [reflexivity | apply wrap_uint8_range].
Qed.

Lemma Compare_refl a : 0 <= CIDRMask a < 32 -> Compare a a = Done 0.
Proof.
  intros Hr. unfold Compare. rewrite Z.sub_diag.
  change (wrap_int 0 =? 0) with true. simpl negb. cbv iota.
  assert (0 <= CIDRMask a ÷ 8 <= 3) as Hi.
  { split; [apply Z.quot_pos; lia |].
    apply Z.lt_succ_r. apply Z.quot_lt_upper_bound; lia. }
  destruct (addr_get_in_range (Address a) _ Hi) as [x ->].
  simpl. rewrite Z.sub_diag. reflexivity.
Qed.

(** ** [Free] *)

Lemma addr_get_returns_or_panics addr i :
  (exists v, addr_get addr i = Done v) \/ addr_get addr i = Panic.
Proof.
  unfold addr_get.
  destruct (i =? 0); [eauto |]. destruct (i =? 1); [eauto |].
  destruct (i =? 2); [eauto |]. destruct (i =? 3); eauto.
Qed.

Lemma addr_set_returns_or_panics addr i v :
  (exists r, addr_set addr i v = Done r) \/ addr_set addr i v = Panic.
Proof.
  unfold addr_set.
  destruct (i =? 0); [eauto |]. destruct (i =? 1); [eauto |].
  destruct (i =? 2); [eauto |]. destruct (i =? 3); eauto.
Qed.

Lemma Compare_returns_or_panics a b :
  (exists n, Compare a b = Done n) \/ Compare a b = Panic.
Proof.
  unfold Compare. destruct (negb _); [eauto |].
  destruct (addr_get_returns_or_panics (Address a) (CIDRMask a ÷ 8)) as [[x ->] | ->];
    [| right; reflexivity].
  destruct (addr_get_returns_or_panics (Address b) (CIDRMask a ÷ 8)) as [[y ->] | ->];
    [| right; reflexivity].
  left. eexists. reflexivity.
Qed.

Lemma Free_loop_returns_or_panics s l :
  (exists r, Free_loop s l = Done r) \/ Free_loop s l = Panic.
Proof.
  induction l as [| c next IH]; simpl; [eauto |].
  destruct (Compare_returns_or_panics s c) as [[n ->] | ->]; simpl; [| eauto].
  destruct (n =? 0); [eauto |]. destruct (n <? 0); [eauto |].
  destruct IH as [[[r | e] ->] | ->]; simpl; eauto.
Qed.

Lemma Free_returns_or_panics pool s :
  (exists r, Free pool s = Done r) \/ Free pool s = Panic.
Proof.
  unfold Free. destruct (_ || _); [eauto |].
  destruct (pool !! _) as [[| c next] |]; eauto.
  destruct (Compare_returns_or_panics s c) as [[n ->] | ->]; simpl; [| eauto].
  destruct (n <? 0); [eauto |].
  destruct (Free_loop_returns_or_panics s next) as [[[r | e] ->] | ->]; simpl; eauto.
Qed.

Lemma Split_step_returns_or_panics s st i :
  (exists r, Split_step s st i = Done r) \/ Split_step s st i = Panic.
Proof.
  destruct st as [[lo hi] m]. unfold Split_step.
  destruct (8 <=? m).
  - destruct (addr_get_returns_or_panics (Address s) i) as [[v ->] | ->]; [| right; reflexivity].
    cbn [exec_bind].
    destruct (addr_set_returns_or_panics lo i v) as [[lo' ->] | ->]; [| right; reflexivity].
    cbn [exec_bind].
    destruct (addr_set_returns_or_panics hi i v) as [[hi' ->] | ->]; [| right; reflexivity].
    left. eexists. reflexivity.
  - destruct (0 <? m); [| eauto].
    destruct (addr_get_returns_or_panics (Address s) i) as [[v ->] | ->]; [| right; reflexivity].
    cbn [exec_bind].
    match goal with |- context [addr_set lo i ?w] =>
      destruct (addr_set_returns_or_panics lo i w) as [[lo' ->] | ->]; [| right; reflexivity];
      cbn [exec_bind];
      destruct (addr_set_returns_or_panics hi i w) as [[hi' ->] | ->]; [| right; reflexivity]
    end.
    left. eexists. reflexivity.
Qed.

Lemma Split_returns_or_panics s :
  (exists r, Split s = Done r) \/ Split s = Panic.
Proof.
  unfold Split. destruct (32 <=? _); [eauto |].
  destruct (Split_step_returns_or_panics s (zero_addr, zero_addr, CIDRMask s) 0)
    as [[st0 ->] | ->]; [| right; reflexivity]. cbn [exec_bind].
  destruct (Split_step_returns_or_panics s st0 1) as [[st1 ->] | ->]; [| right; reflexivity].
  cbn [exec_bind].
  destruct (Split_step_returns_or_panics s st1 2) as [[st2 ->] | ->]; [| right; reflexivity].
  cbn [exec_bind].
  destruct (Split_step_returns_or_panics s st2 3) as [[[[lo hi] m] ->] | ->];
    [| right; reflexivity].
  cbn [exec_bind].
  destruct (addr_get_returns_or_panics lo (CIDRMask s ÷ 8)) as [[l ->] | ->];
    [| right; reflexivity]. cbn [exec_bind].
  match goal with |- context [addr_set lo ?i ?w] =>
    destruct (addr_set_returns_or_panics lo i w) as [[lo' ->] | ->]; [| right; reflexivity]
  end. cbn [exec_bind].
  destruct (addr_get_returns_or_panics hi (CIDRMask s ÷ 8)) as [[h ->] | ->];
    [| right; reflexivity]. cbn [exec_bind].
  match goal with |- context [addr_set hi ?i ?w] =>
    destruct (addr_set_returns_or_panics hi i w) as [[hi' ->] | ->]; [| right; reflexivity]
  end. cbn [exec_bind].
  left. eexists. reflexivity.
Qed.

(** ** [Alloc] returns: the recursion bound is never reached *)

Lemma Alloc_fuel_enough fuel pool size :
  (Z.to_nat (size + 1) < fuel)%nat ->
  (exists r, Alloc_fuel fuel pool size = Done r) \/ Alloc_fuel fuel pool size = Panic.
Proof.
  revert pool size. induction fuel as [| fuel IH]; intros pool size Hf; [lia |].
  simpl. destruct (Z.ltb_spec size 0); simpl; [eauto |].
  destruct (32 <? size); [eauto |].
  destruct (pool !! _) as [[| node next] |]; eauto.
  destruct (IH pool (size - 1)) as [[[big pool1] ->] | ->]; [lia | | simpl; eauto].
  simpl. destruct big as [bigSubnet | e]; [| eauto].
  destruct (Split_returns_or_panics bigSubnet) as [[[[lo hi] | e] ->] | ->]; simpl; eauto.
  - destruct (Free_returns_or_panics pool1 hi) as [[[[e |] pool2] ->] | ->]; simpl; eauto.
    destruct (Free_returns_or_panics pool2 bigSubnet) as [[[x pool3] ->] | ->]; simpl; eauto.
  - destruct (Free_returns_or_panics pool1 bigSubnet) as [[[x pool3] ->] | ->]; simpl; eauto.
Qed.

Lemma Alloc_fuel_out_of_range fuel pool size :
  size < 0 \/ 32 < size ->
  Alloc_fuel (S fuel) pool size = Done (Err ErrInvalidSubnetSize, pool).
Proof.
  intros H. simpl.
  destruct (Z.ltb_spec size 0); [reflexivity |].
  destruct (Z.ltb_spec 32 size); [reflexivity | lia].
Qed.

(** The recursion of [Alloc] ends: whatever the pool and the size, the bound
    on its depth is not reached. *)
Theorem Alloc_total (pool : list (list IPv4Subnet)) (size : Z) :
  Alloc pool size <> OutOfFuel.
Proof.
  unfold Alloc. destruct (Z.ltb_spec 32 size) as [Hs | Hs].
  - rewrite (Alloc_fuel_out_of_range 33) by lia. discriminate.
  - destruct (Alloc_fuel_enough 34 pool size) as [[r H] | H]; [lia | |]; rewrite H; discriminate.
Qed.

(** ** Claims about [Compare] *)

(** C4 (subnet ordering).  [Compare] reads one octet only, under a mask that
    is zero when the mask length is a multiple of 8, and returns a [uint8]
    difference: two distinct /24 subnets compare equal, a subnet with the
    smaller address compares greater, and subnets that differ in an earlier
    octet compare equal. *)
Theorem C4_Compare_not_the_documented_order :
  Compare (mkSubnet (mkAddr 10 0 0 0) 24) (mkSubnet (mkAddr 10 0 1 0) 24) = Done 0 /\
  Compare (mkSubnet (mkAddr 10 0 0 0) 25) (mkSubnet (mkAddr 10 0 0 128) 25) = Done 128 /\
  Compare (mkSubnet (mkAddr 10 0 0 0) 25) (mkSubnet (mkAddr 11 0 0 0) 25) = Done 0.
Proof. repeat split; reflexivity. Qed.

(** C10 (in-bounds reads).  For two /32 subnets [Compare] indexes the
    address at [32/8 = 4] and panics, and so does [Free] of a /32 subnet
    into a pool whose /32 bucket is not empty. *)
Theorem C10_Compare_slash32_out_of_bounds :
  (forall x y : IPv4Address, Compare (mkSubnet x 32) (mkSubnet y 32) = Panic) /\
  (forall x y : IPv4Address,
     Free (<[32%nat := [mkSubnet y 32]]> empty_pool) (mkSubnet x 32) = Panic).
Proof. split; intros x y; reflexivity. Qed.

(** ** Claims about [Free] *)

Lemma Free_loop_double_free s next :
  0 <= CIDRMask s < 32 ->
  Forall (fun c => CIDRMask c = CIDRMask s) next ->
  s ∈ next ->
  Free_loop s next = Done (Err ErrDoubleFree).
Proof.
  intros Hr Hall Hin. induction next as [| c next IH]; [inversion Hin |].
  apply Forall_cons in Hall as [Hc Hall]. simpl.
  destruct (decide (c = s)) as [-> | Hne].
  - rewrite Compare_refl by exact Hr. reflexivity.
  - destruct (Compare_same_mask_nonneg s c) as (n & -> & Hn); [congruence | exact Hr |].
    cbn [exec_bind]. destruct (Z.eqb_spec n 0); [reflexivity |].
    destruct (Z.ltb_spec n 0); [lia |].
    rewrite IH; [reflexivity | exact Hall |].
    apply elem_of_cons in Hin as [-> | Hin]; [congruence | exact Hin].
Qed.

(** The double-free check of [Free] on the nodes after the head: a subnet
    already linked there is reported and the pool is left as it was. *)
Theorem Free_double_free_after_head pool s c next :
  0 <= CIDRMask s < 32 ->
  pool !! Z.to_nat (CIDRMask s) = Some (c :: next) ->
  Forall (fun c => CIDRMask c = CIDRMask s) (c :: next) ->
  s ∈ next ->
  Free pool s = Done (Some ErrDoubleFree, pool).
Proof.
  intros Hr Hb Hall Hin. apply Forall_cons in Hall as [Hc Hall].
  unfold Free.
  destruct (Z.ltb_spec (CIDRMask s) 0); [lia |].
  destruct (Z.ltb_spec 32 (CIDRMask s)); [lia |]. cbn [orb].
  rewrite Hb.
  destruct (Compare_same_mask_nonneg s c) as (n & -> & Hn); [congruence | exact Hr |].
  cbn [exec_bind]. destruct (Z.ltb_spec n 0); [lia |].
  rewrite Free_loop_double_free by assumption. reflexivity.
Qed.

Lemma Free_double_free_after_head_witness :
  let a := mkSubnet (mkAddr 10 0 0 128) 25 in
  let b := mkSubnet (mkAddr 10 0 0 0) 25 in
  let pool := <[25%nat := [a; b]]> empty_pool in
  Free pool b = Done (Some ErrDoubleFree, pool).
Proof.
  apply (Free_double_free_after_head
           (<[25%nat := [mkSubnet (mkAddr 10 0 0 128) 25; mkSubnet (mkAddr 10 0 0 0) 25]]>
              empty_pool)
           (mkSubnet (mkAddr 10 0 0 0) 25) (mkSubnet (mkAddr 10 0 0 128) 25)
           [mkSubnet (mkAddr 10 0 0 0) 25]).
  - simpl. lia.
  - reflexivity.
  - repeat constructor.
  - constructor.
Defined.

(** C3 (double-free detection).  The head of a bucket is never compared for
    equality: freeing the only subnet of a bucket a second time returns no
    error and links it twice. *)
Theorem C3_double_free_of_head_accepted (pool : IPv4SubnetPool) (s : IPv4Subnet) :
  0 <= CIDRMask s < 32 ->
  pool !! Z.to_nat (CIDRMask s) = Some [s] ->
  Free pool s = Done (None, <[Z.to_nat (CIDRMask s) := [s; s]]> pool).
Proof.
  intros Hr Hb. unfold Free.
  destruct (Z.ltb_spec (CIDRMask s) 0); [lia |].
  destruct (Z.ltb_spec 32 (CIDRMask s)); [lia |]. cbn [orb].
  rewrite Hb, Compare_refl by exact Hr. reflexivity.
Qed.

Lemma C3_double_free_of_head_accepted_witness :
  let s := mkSubnet (mkAddr 10 128 0 0) 14 in
  let pool := <[14%nat := [s]]> empty_pool in
  Free empty_pool s = Done (None, pool) /\
  Free pool s = Done (None, <[14%nat := [s; s]]> pool).
Proof.
  split; [reflexivity |].
  apply (C3_double_free_of_head_accepted
           (<[14%nat := [mkSubnet (mkAddr 10 128 0 0) 14]]> empty_pool)
           (mkSubnet (mkAddr 10 128 0 0) 14)).
  - simpl. lia.
  - reflexivity.
Defined.

(** ** Pool exhaustion *)

(** The /24 subnets of the /16 block [a.b.0.0], in the order [Alloc] returns
    them. *)
Lemma slash24_inj a b :
  Inj eq eq (fun x : nat => mkSubnet (mkAddr a b (Z.of_nat x) 0) 24).
Proof. intros x y H. injection H as H. lia. Qed.

Lemma Alloc_repeat_slash16 a b c d :
  Alloc_repeat 256 (<[16%nat := [mkSubnet (mkAddr a b c d) 16]]> empty_pool) 24 =
  Done ((fun x : nat => Ok (mkSubnet (mkAddr a b (Z.of_nat x) 0) 24)) <$> seq 0 256,
        empty_pool).
Proof. vm_compute. reflexivity. Qed.

Lemma Netmask_16 addr : Netmask (mkSubnet addr 16) = mkAddr 255 255 0 0.
Proof. reflexivity. Qed.

Lemma Netmask_24 addr : Netmask (mkSubnet addr 24) = mkAddr 255 255 255 0.
Proof. reflexivity. Qed.

(** C5 (pool exhaustion).  From a pool holding one /16 block, 256 calls
    [Alloc(24)] return 256 pairwise distinct /24 subnets whose blocks cover
    exactly the /16 block and leave the pool empty; the next [Alloc(24)]
    fails with the invalid-size error (the specification's OutOfAddresses);
    after [Free] of any one of the 256, [Alloc(24)] returns it again. *)
Theorem C5_pool_exhaustion (C : IPv4Subnet) :
  wf_addr (Address C) -> CIDRMask C = 16 ->
  exists pool0 subnets,
    Free empty_pool C = Done (None, pool0) /\
    Alloc_repeat 256 pool0 24 = Done (Ok <$> subnets, empty_pool) /\
    length subnets = 256%nat /\
    NoDup subnets /\
    Forall (fun s => CIDRMask s = 24) subnets /\
    (forall ip, wf_addr ip ->
       in_subnet ip C <-> exists s, s ∈ subnets /\ in_subnet ip s) /\
    Alloc empty_pool 24 = Done (Err ErrInvalidSubnetSize, empty_pool) /\
    (forall s, s ∈ subnets ->
       exists pool1, Free empty_pool s = Done (None, pool1) /\
                     Alloc pool1 24 = Done (Ok s, empty_pool)).
Proof.
  destruct C as [[a b c d] m]. cbn [Address CIDRMask]. intros (Ha & Hb & Hc & Hd) ->.
  exists (<[16%nat := [mkSubnet (mkAddr a b c d) 16]]> empty_pool).
  exists ((fun x : nat => mkSubnet (mkAddr a b (Z.of_nat x) 0) 24) <$> seq 0 256).
  split; [reflexivity |].
  split; [rewrite Alloc_repeat_slash16, <- list_fmap_compose; reflexivity |].
  split; [rewrite length_fmap, length_seq; reflexivity |].
  split; [apply (NoDup_fmap_2 _ (Inj0 := slash24_inj a b)), NoDup_seq |].
  split; [apply Forall_forall; intros s [x [-> _]]%list_elem_of_fmap; reflexivity |].
  split; [| split; [reflexivity |]].
  - intros [i0 i1 i2 i3] (H0 & H1 & H2 & H3). unfold in_subnet.
    rewrite Netmask_16. cbn [Address oct0 oct1 oct2 oct3] in *. split.
    + intros (E0 & E1 & _ & _).
      exists (mkSubnet (mkAddr a b i2 0) 24). split.
      * apply list_elem_of_fmap. exists (Z.to_nat i2). split.
        -- unfold octet in H2. rewrite Z2Nat.id by lia. reflexivity.
        -- apply elem_of_seq. unfold octet in H2. lia.
      * rewrite Netmask_24. cbn [Address oct0 oct1 oct2 oct3].
        rewrite !Z.land_0_r. auto.
    + intros (s & [x [-> _]]%list_elem_of_fmap & E).
      rewrite Netmask_24 in E. cbn [Address oct0 oct1 oct2 oct3] in E.
      destruct E as (E0 & E1 & _ & _). rewrite !Z.land_0_r. auto.
  - intros s [x [-> _]]%list_elem_of_fmap.
    eexists. split; reflexivity.
Qed.

Lemma C5_pool_exhaustion_witness :
  wf_addr (mkAddr 10 128 0 0) /\
  exists pool0 subnets,
    Free empty_pool (mkSubnet (mkAddr 10 128 0 0) 16) = Done (None, pool0) /\
    Alloc_repeat 256 pool0 24 = Done (Ok <$> subnets, empty_pool) /\
    length subnets = 256%nat /\
    NoDup subnets /\
    Forall (fun s => CIDRMask s = 24) subnets /\
    (forall ip, wf_addr ip ->
       in_subnet ip (mkSubnet (mkAddr 10 128 0 0) 16) <->
       exists s, s ∈ subnets /\ in_subnet ip s) /\
    Alloc empty_pool 24 = Done (Err ErrInvalidSubnetSize, empty_pool) /\
    (forall s, s ∈ subnets ->
       exists pool1, Free empty_pool s = Done (None, pool1) /\
                     Alloc pool1 24 = Done (Ok s, empty_pool)).
Proof.
  assert (wf_addr (mkAddr 10 128 0 0)) as Hwf.
  { unfold wf_addr, octet. simpl. lia. }
  split; [exact Hwf |].
  apply (C5_pool_exhaustion (mkSubnet (mkAddr 10 128 0 0) 16)); [exact Hwf | reflexivity].
Defined.

(** ** Pool restoration *)

Lemma empty_pool_lookup (k : nat) : (k < 33)%nat -> empty_pool !! k = Some [].
Proof. intros H. unfold empty_pool. apply lookup_replicate_2. exact H. Qed.

Lemma Free_into_empty_bucket pool s :
  0 <= CIDRMask s <= 32 ->
  pool !! Z.to_nat (CIDRMask s) = Some [] ->
  Free pool s = Done (None, <[Z.to_nat (CIDRMask s) := [s]]> pool).
Proof.
  intros Hr Hb. unfold Free.
  destruct (Z.ltb_spec (CIDRMask s) 0); [lia |].
  destruct (Z.ltb_spec 32 (CIDRMask s)); [lia |]. cbn [orb].
  rewrite Hb. reflexivity.
Qed.

Lemma Alloc_fuel_head fuel pool size node next :
  0 <= size <= 32 ->
  pool !! Z.to_nat size = Some (node :: next) ->
  Alloc_fuel (S fuel) pool size = Done (Ok node, <[Z.to_nat size := next]> pool).
Proof.
  intros Hr Hb. simpl.
  destruct (Z.ltb_spec size 0); [lia |].
  destruct (Z.ltb_spec 32 size); [lia |]. cbn [orb].
  rewrite Hb. reflexivity.
Qed.

(** With every bucket up to [size] empty there is nothing to split: [Alloc]
    fails and leaves the pool as it was. *)
Lemma Alloc_fuel_nothing_below fuel pool size :
  (Z.to_nat (size + 1) < fuel)%nat ->
  (forall k : nat, (k <= Z.to_nat size)%nat -> pool !! k = Some []) ->
  Alloc_fuel fuel pool size = Done (Err ErrInvalidSubnetSize, pool).
Proof.
  revert size. induction fuel as [| fuel IH]; intros size Hf Hb; [lia |].
  simpl. destruct (Z.ltb_spec size 0); [reflexivity |].
  destruct (Z.ltb_spec 32 size); [reflexivity |]. cbn [orb].
  rewrite Hb by lia.
  rewrite IH; [reflexivity | lia |].
  intros k Hk. apply Hb. lia.
Qed.

Lemma Alloc_nothing_below pool size :
  size <= 32 ->
  (forall k : nat, (k <= Z.to_nat size)%nat -> pool !! k = Some []) ->
  Alloc pool size = Done (Err ErrInvalidSubnetSize, pool).
Proof. intros Hs Hb. unfold Alloc. apply Alloc_fuel_nothing_below; [lia | exact Hb]. Qed.

Lemma single_block_taken (m : nat) (C : IPv4Subnet) :
  (m < 33)%nat -> <[m := []]> (<[m := [C]]> empty_pool) = empty_pool.
Proof.
  intros Hm. rewrite list_insert_insert_eq.
  apply list_insert_id. apply empty_pool_lookup. exact Hm.
Qed.

(** The two states a pool made of one block [C] can be in while no request
    asks for a longer mask than the mask of [C]. *)
Lemma run_ops_without_split C ops pool held pool' :
  0 <= CIDRMask C <= 32 ->
  Forall (fun size => size <= CIDRMask C) (alloc_sizes ops) ->
  (pool = <[Z.to_nat (CIDRMask C) := [C]]> empty_pool /\ held = []) \/
  (pool = empty_pool /\ held = [C]) ->
  run_ops ops pool held = Some (pool', []) ->
  pool' = <[Z.to_nat (CIDRMask C) := [C]]> empty_pool.
Proof.
  intros Hr. revert pool held.
  induction ops as [| [size | s] ops IH]; intros pool held Hsz Hst Hrun.
  - simpl in Hrun. destruct Hst as [[-> ->] | [-> ->]]; congruence.
  - unfold alloc_sizes in Hsz. cbn [omap list_omap] in Hsz.
    apply Forall_cons in Hsz as [Hs Hsz]. cbn [run_ops] in Hrun.
    destruct Hst as [[-> ->] | [-> ->]].
    + destruct (Z.eq_dec size (CIDRMask C)) as [-> | Hne].
      * unfold Alloc in Hrun.
        rewrite (Alloc_fuel_head 33 _ _ C []) in Hrun;
          [| lia | apply list_lookup_insert_eq; unfold empty_pool;
                   rewrite length_replicate; lia].
        rewrite single_block_taken in Hrun by lia.
        eapply IH; [exact Hsz | right; split; reflexivity | exact Hrun].
      * destruct (Z.ltb_spec size 0) as [Hneg | Hpos].
        -- unfold Alloc in Hrun. rewrite (Alloc_fuel_out_of_range 33) in Hrun by lia.
           eapply IH; [exact Hsz | left; split; reflexivity | exact Hrun].
        -- rewrite Alloc_nothing_below in Hrun; [| lia |].
           ++ eapply IH; [exact Hsz | left; split; reflexivity | exact Hrun].
           ++ intros k Hk. rewrite list_lookup_insert_ne by lia.
              apply empty_pool_lookup. lia.
    + rewrite Alloc_nothing_below in Hrun; [| lia |].
      * eapply IH; [exact Hsz | right; split; reflexivity | exact Hrun].
      * intros k Hk. apply empty_pool_lookup.
        destruct (Z.ltb_spec size 0); [rewrite Z2Nat.nonpos in Hk by lia |]; lia.
  - unfold alloc_sizes in Hsz. cbn [omap list_omap] in Hsz. cbn [run_ops] in Hrun.
    destruct Hst as [[-> ->] | [-> ->]].
    + destruct (decide (s ∈ [])) as [Hin | Hin]; [inversion Hin | discriminate].
    + destruct (decide (s ∈ [C])) as [Hin | Hin]; [| discriminate].
      apply list_elem_of_singleton in Hin as ->.
      rewrite Free_into_empty_bucket in Hrun; [| exact Hr | apply empty_pool_lookup; lia].
      cbn [release] in Hrun. rewrite decide_True in Hrun by reflexivity.
      eapply IH; [exact Hsz | left; split; reflexivity | exact Hrun].
Qed.

(** C2 as stated fails: [Free] does not merge.  After [Free] of the cluster
    block 10.128.0.0/14, one [Alloc(24)] and the [Free] of its result, no
    subnet is held, the pool is not the initial one, and [Alloc(14)] fails. *)
Lemma C2_restoration_counterexample :
  let C := mkSubnet (mkAddr 10 128 0 0) 14 in
  let pool0 := <[14%nat := [C]]> empty_pool in
  Free empty_pool C = Done (None, pool0) /\
  exists pool',
    run_ops [OpAlloc 24; OpFree (mkSubnet (mkAddr 10 128 0 0) 24)] pool0 [] = Some (pool', []) /\
    pool' <> pool0 /\
    Alloc pool' 14 = Done (Err ErrInvalidSubnetSize, pool').
Proof.
  split; [reflexivity |]. eexists. split; [vm_compute; reflexivity |].
  split; [| vm_compute; reflexivity].
  intros H. apply (f_equal (fun p : IPv4SubnetPool => p !! 14%nat)) in H.
  vm_compute in H. discriminate.
Qed.

(** C2, amended.  When no [Alloc] asks for a mask longer than the mask of
    the cluster block [C] (so that no block is split) and every subnet
    returned by [Alloc] has been freed, the pool is the initial one and
    [Alloc] with the mask of [C] returns [C]. *)
Theorem C2_restoration_without_split (C : IPv4Subnet) (ops : list PoolOp)
    (pool' : IPv4SubnetPool) :
  0 <= CIDRMask C <= 32 ->
  Forall (fun size => size <= CIDRMask C) (alloc_sizes ops) ->
  run_ops ops (<[Z.to_nat (CIDRMask C) := [C]]> empty_pool) [] = Some (pool', []) ->
  Free empty_pool C = Done (None, <[Z.to_nat (CIDRMask C) := [C]]> empty_pool) /\
  pool' = <[Z.to_nat (CIDRMask C) := [C]]> empty_pool /\
  Alloc pool' (CIDRMask C) = Done (Ok C, empty_pool).
Proof.
  intros Hr Hsz Hrun.
  split; [apply Free_into_empty_bucket; [exact Hr | apply empty_pool_lookup; lia] |].
  assert (pool' = <[Z.to_nat (CIDRMask C) := [C]]> empty_pool) as ->.
  { eapply run_ops_without_split; [exact Hr | exact Hsz | left; split; reflexivity | exact Hrun]. }
  split; [reflexivity |].
  unfold Alloc. rewrite (Alloc_fuel_head 33 _ _ C []);
    [| exact Hr | apply list_lookup_insert_eq; unfold empty_pool;
                  rewrite length_replicate; lia].
  rewrite single_block_taken by lia. reflexivity.
Qed.

Lemma C2_restoration_without_split_witness :
  let C := mkSubnet (mkAddr 10 128 0 0) 14 in
  let pool0 := <[14%nat := [C]]> empty_pool in
  Free empty_pool C = Done (None, pool0) /\
  pool0 = pool0 /\
  Alloc pool0 14 = Done (Ok C, empty_pool).
Proof.
  apply (C2_restoration_without_split (mkSubnet (mkAddr 10 128 0 0) 14)
           [OpAlloc 14; OpAlloc 3; OpFree (mkSubnet (mkAddr 10 128 0 0) 14); OpAlloc 14;
            OpFree (mkSubnet (mkAddr 10 128 0 0) 14)]).
  - simpl. lia.
  - unfold alloc_sizes. simpl. repeat constructor; lia.
  - vm_compute. reflexivity.
Defined.

(** * Further properties of the subnet pool *)

(** [Free] rejects a mask length outside [0, 32] and leaves the pool as it
    was. *)
Lemma Free_bad_mask pool s :
  CIDRMask s < 0 \/ 32 < CIDRMask s -> Free pool s = Done (Some ErrBadSubnet, pool).
Proof.
  intros H. unfold Free.
  destruct (Z.ltb_spec (CIDRMask s) 0); [reflexivity |].
  destruct (Z.ltb_spec 32 (CIDRMask s)); [reflexivity | lia].
Qed.

Lemma Free_loop_cases s next :
  0 <= CIDRMask s < 32 ->
  Forall (fun c => CIDRMask c = CIDRMask s) next ->
  Free_loop s next = Done (Ok (next ++ [s])%list) \/ Free_loop s next = Done (Err ErrDoubleFree).
Proof.
  intros Hr Hall. induction next as [| c next IH]; [left; reflexivity |].
  apply Forall_cons in Hall as [Hc Hall]. simpl.
  destruct (Compare_same_mask_nonneg s c) as (n & -> & Hn); [congruence | exact Hr |].
  cbn [exec_bind]. destruct (Z.eqb_spec n 0); [right; reflexivity |].
  destruct (Z.ltb_spec n 0); [lia |].
  destruct (IH Hall) as [-> | ->]; [left | right]; reflexivity.
Qed.

(** Within a bucket [Free] never links a subnet before an existing node:
    [Compare] is never negative on one mask length, so the subnet goes to
    the end of the list, or the call reports a double free and changes
    nothing.  Buckets are in order of release, not of address. *)
Theorem Free_appends_or_rejects (pool : list (list IPv4Subnet)) (s : IPv4Subnet)
    (bucket : list IPv4Subnet) :
  0 <= CIDRMask s < 32 ->
  pool !! Z.to_nat (CIDRMask s) = Some bucket ->
  Forall (fun c => CIDRMask c = CIDRMask s) bucket ->
  Free pool s = Done (None, <[Z.to_nat (CIDRMask s) := (bucket ++ [s])%list]> pool) \/
  Free pool s = Done (Some ErrDoubleFree, pool).
Proof.
  intros Hr Hb Hall. unfold Free.
  destruct (Z.ltb_spec (CIDRMask s) 0); [lia |].
  destruct (Z.ltb_spec 32 (CIDRMask s)); [lia |]. cbn [orb].
  rewrite Hb. destruct bucket as [| c next]; [left; reflexivity |].
  apply Forall_cons in Hall as [Hc Hall].
  destruct (Compare_same_mask_nonneg s c) as (n & -> & Hn); [congruence | exact Hr |].
  cbn [exec_bind]. destruct (Z.ltb_spec n 0); [lia |].
  destruct (Free_loop_cases s next Hr Hall) as [-> | ->]; [left | right]; reflexivity.
Qed.

Lemma Free_appends_or_rejects_witness :
  let a := mkSubnet (mkAddr 10 0 0 128) 25 in
  let b := mkSubnet (mkAddr 10 0 0 0) 25 in
  let pool := <[25%nat := [a]]> empty_pool in
  Free pool b = Done (None, <[25%nat := ([a] ++ [b])%list]> pool) \/
  Free pool b = Done (Some ErrDoubleFree, pool).
Proof.
  apply (Free_appends_or_rejects
           (<[25%nat := [mkSubnet (mkAddr 10 0 0 128) 25]]> empty_pool)
           (mkSubnet (mkAddr 10 0 0 0) 25) [mkSubnet (mkAddr 10 0 0 128) 25]).
  - simpl. lia.
  - reflexivity.
  - repeat constructor.
Defined.

(** When the mask length is a multiple of 8 the octet mask of [Compare] is
    zero: any two subnets of that length compare equal. *)
Lemma Compare_octet_aligned a b :
  CIDRMask a = CIDRMask b -> 0 <= CIDRMask a < 32 -> Z.rem (CIDRMask a) 8 = 0 ->
  Compare a b = Done 0.
Proof.
  intros Hm Hr Hrem. unfold Compare. rewrite <- Hm, Z.sub_diag.
  change (wrap_int 0 =? 0) with true. cbn [negb]. cbv iota.
  rewrite Hrem.
  assert (0 <= CIDRMask a ÷ 8 <= 3) as Hi.
  { split; [apply Z.quot_pos; lia |].
    apply Z.lt_succ_r. apply Z.quot_lt_upper_bound; lia. }
  destruct (addr_get_in_range (Address a) _ Hi) as [x ->].
  destruct (addr_get_in_range (Address b) _ Hi) as [y ->].
  cbn [exec_bind].
  change (wrap_uint8 (wrap_uint (256 - shl_uint 1 (wrap_uint (8 - 0))) mod 256)) with 0.
  rewrite !Z.land_0_r. reflexivity.
Qed.

(** A bucket of /8, /16 or /24 subnets takes two subnets through [Free] and
    no more: with two nodes linked, every further [Free] of that mask length
    finds the second node "equal" and fails with the double-free error,
    whatever the address. *)
Theorem Free_aligned_bucket_holds_two (pool : list (list IPv4Subnet)) (s c1 c2 : IPv4Subnet)
    (rest : list IPv4Subnet) :
  0 <= CIDRMask s < 32 -> Z.rem (CIDRMask s) 8 = 0 ->
  pool !! Z.to_nat (CIDRMask s) = Some (c1 :: c2 :: rest) ->
  CIDRMask c1 = CIDRMask s -> CIDRMask c2 = CIDRMask s ->
  Free pool s = Done (Some ErrDoubleFree, pool).
Proof.
  intros Hr Hrem Hb H1 H2. unfold Free.
  destruct (Z.ltb_spec (CIDRMask s) 0); [lia |].
  destruct (Z.ltb_spec 32 (CIDRMask s)); [lia |]. cbn [orb].
  rewrite Hb, (Compare_octet_aligned s c1) by (assumption || congruence).
  cbn [exec_bind Z.ltb Z.compare Free_loop].
  rewrite (Compare_octet_aligned s c2) by (assumption || congruence).
  reflexivity.
Qed.

Lemma Free_aligned_bucket_holds_two_witness :
  let pool := <[24%nat := [mkSubnet (mkAddr 10 128 3 0) 24; mkSubnet (mkAddr 10 128 0 0) 24]]>
                empty_pool in
  Free pool (mkSubnet (mkAddr 10 128 1 0) 24) = Done (Some ErrDoubleFree, pool).
Proof.
  apply (Free_aligned_bucket_holds_two
           (<[24%nat := [mkSubnet (mkAddr 10 128 3 0) 24; mkSubnet (mkAddr 10 128 0 0) 24]]>
              empty_pool)
           (mkSubnet (mkAddr 10 128 1 0) 24) (mkSubnet (mkAddr 10 128 3 0) 24)
           (mkSubnet (mkAddr 10 128 0 0) 24) []); try reflexivity.
  simpl. lia.
Defined.

(** [Free] does not merge: it changes the bucket of the subnet's own mask
    length at most, and the pool keeps its 33 buckets. *)
Theorem Free_touches_one_bucket (pool pool' : list (list IPv4Subnet)) (s : IPv4Subnet)
    (err : option error) :
  Free pool s = Done (err, pool') ->
  length pool' = length pool /\
  forall k : nat, k <> Z.to_nat (CIDRMask s) -> pool' !! k = pool !! k.
Proof.
  unfold Free. destruct (_ || _); [intros [= _ <-]; auto |].
  destruct (pool !! _) as [[| c next] |] eqn:Hb; [| | discriminate].
  - intros [= _ <-]. split; [apply length_insert |].
    intros k Hk. apply list_lookup_insert_ne. congruence.
  - destruct (Compare s c) as [n | | |]; cbn [exec_bind]; try discriminate.
    destruct (n <? 0).
    + intros [= _ <-]. split; [apply length_insert |].
      intros k Hk. apply list_lookup_insert_ne. congruence.
    + destruct (Free_loop s next) as [[l | e] | | |]; cbn [exec_bind]; try discriminate.
      * intros [= _ <-]. split; [apply length_insert |].
        intros k Hk. apply list_lookup_insert_ne. congruence.
      * intros [= _ <-]. auto.
Qed.

Lemma Free_touches_one_bucket_witness :
  let pool := <[24%nat := [mkSubnet (mkAddr 10 128 1 0) 24]]> empty_pool in
  let pool' := <[25%nat := [mkSubnet (mkAddr 10 128 0 0) 25]]> pool in
  length pool' = length pool /\
  forall k : nat, k <> 25%nat -> pool' !! k = pool !! k.
Proof.
  apply (Free_touches_one_bucket
           (<[24%nat := [mkSubnet (mkAddr 10 128 1 0) 24]]> empty_pool) _
           (mkSubnet (mkAddr 10 128 0 0) 25) None).
  reflexivity.
Defined.

(** An empty pool always fails: with every bucket up to the requested size
    empty, [Alloc] returns the invalid-size error and changes nothing. *)
Theorem Alloc_empty_pool_fails (size : Z) :
  Alloc empty_pool size = Done (Err ErrInvalidSubnetSize, empty_pool).
Proof.
  destruct (Z.ltb_spec 32 size) as [Hs | Hs].
  - unfold Alloc. apply (Alloc_fuel_out_of_range 33). lia.
  - apply Alloc_nothing_below; [exact Hs |].
    intros k Hk. apply empty_pool_lookup.
    destruct (Z.ltb_spec size 0); [rewrite Z2Nat.nonpos in Hk by lia |]; lia.
Qed.

(** ** [Split], [Merge] and [Netmask] *)

Lemma mask_cases (P : Z -> Prop) :
  (forall n : nat, (n < 32)%nat -> P (Z.of_nat n)) -> forall m, 0 <= m < 32 -> P m.
Proof.
  intros H m Hm. rewrite <- (Z2Nat.id m) by lia. apply H. lia.
Qed.

Lemma testbit_differs x y k : Z.testbit x k <> Z.testbit y k -> x <> y.
Proof. intros H ->. apply H. reflexivity. Qed.

Ltac split_bits :=
  rewrite ?Z.land_lor_distr_l, <- ?Z.land_assoc; cbn [Z.land Pos.land Pos.Nsucc_double
    Pos.Ndouble oct0 oct1 oct2 oct3];
  rewrite ?Z.lor_0_r, ?Z.land_0_r; try reflexivity.

Ltac bit_differs k :=
  apply (testbit_differs _ _ k);
  rewrite ?Z.land_spec, ?Z.lor_spec, ?Z.land_spec;
  try match goal with
      | |- context [Z.testbit ?v k] => is_var v; generalize (Z.testbit v k); intros []
      end;
  vm_compute; discriminate.

Ltac halves_differ :=
  let H := fresh in
  intros H; injection H as H; revert H;
  first [ solve [bit_differs 0] | solve [bit_differs 1] | solve [bit_differs 2]
        | solve [bit_differs 3] | solve [bit_differs 4] | solve [bit_differs 5]
        | solve [bit_differs 6] | solve [bit_differs 7] ].

Ltac split_case :=
  let lo := fresh "lo" in
  let hi := fresh "hi" in
  eexists _, _; split; [cbv -[Z.land Z.lor]; reflexivity |];
  split; [reflexivity |]; split; [reflexivity |];
  split; [halves_differ |];
  split; (cbv -[Z.land Z.lor]; repeat split; split_bits).

Lemma Split_halves (s : IPv4Subnet) :
  0 <= CIDRMask s < 32 ->
  exists lo hi,
    Split s = Done (Ok (lo, hi)) /\
    CIDRMask lo = CIDRMask s + 1 /\ CIDRMask hi = CIDRMask s + 1 /\
    lo <> hi /\
    in_subnet (Address lo) s /\ in_subnet (Address hi) s.
Proof.
  destruct s as [[a b c d] m]. cbn [CIDRMask]. intros Hm. pattern m.
  apply mask_cases; [| exact Hm]. clear m Hm. intros n Hn.
  do 32 (destruct n as [| n]; [split_case |]). lia.
Qed.


(** For a mask length below 32, [Split] returns two distinct blocks of mask
    length one more, both starting inside the block that was split. *)
Theorem Split_two_halves (s : IPv4Subnet) :
  0 <= CIDRMask s < 32 ->
  exists lo hi,
    Split s = Done (Ok (lo, hi)) /\
    CIDRMask lo = CIDRMask s + 1 /\ CIDRMask hi = CIDRMask s + 1 /\
    lo <> hi /\
    in_subnet (Address lo) s /\ in_subnet (Address hi) s.
Proof.
  intros Hm. destruct (Split_halves s Hm) as (lo & hi & Hs & Hlo & Hhi & Hne & Hin).
  exists lo, hi. split; [exact Hs |]. split; [exact Hlo |]. split; [exact Hhi |].
  split; [exact Hne | exact Hin].
Qed.

Lemma Split_two_halves_witness :
  exists lo hi,
    Split (mkSubnet (mkAddr 10 128 0 0) 14) = Done (Ok (lo, hi)) /\
    CIDRMask lo = 14 + 1 /\ CIDRMask hi = 14 + 1 /\
    lo <> hi /\
    in_subnet (Address lo) (mkSubnet (mkAddr 10 128 0 0) 14) /\
    in_subnet (Address hi) (mkSubnet (mkAddr 10 128 0 0) 14).
Proof.
  apply (Split_two_halves (mkSubnet (mkAddr 10 128 0 0) 14)). simpl. lia.
Defined.

Lemma land_255 v : octet v -> Z.land v 255 = v.
Proof.
  intros H. change 255 with (Z.ones 8). rewrite Z.land_ones by lia.
  apply Z.mod_small. unfold octet in H. simpl. lia.
Qed.

Lemma lor_disjoint x c bit : Z.land c bit = 0 -> Z.lor (Z.land x c) bit = Z.land x c + bit.
Proof.
  intros H. rewrite <- Z.lxor_lor, <- Z.add_nocarry_lxor; try reflexivity;
    rewrite <- Z.land_assoc, H, Z.land_0_r; reflexivity.
Qed.

Lemma sub_add_cancel x k : x - (x + k) = - k.
Proof. lia. Qed.

(** Evaluate the closed tests and the closed integer arguments left by the
    symbolic run of [Split], [Compare] and [Merge] on an address with
    unknown octets. *)
Ltac eval_closed :=
  match goal with
  | |- context [if ?c then _ else _] =>
      let v := eval vm_compute in c in
      match v with
      | true => change c with true
      | false => change c with false
      end; cbv iota
  | |- context [Z.land (Zpos ?p) (Zpos ?q)] =>
      let v := eval vm_compute in (Z.land (Zpos p) (Zpos q)) in
      change (Z.land (Zpos p) (Zpos q)) with v
  | |- context [Z.land ?x ?m] =>
      lazymatch m with
      | Zpos _ => fail
      | Z0 => fail
      | _ => let v := eval vm_compute in m in
             lazymatch v with
             | Zpos _ => change m with v
             | Z0 => change m with v
             end
      end
  | |- context [wrap_uint8 (Zneg ?p)] =>
      let v := eval vm_compute in (wrap_uint8 (Zneg p)) in
      change (wrap_uint8 (Zneg p)) with v
  | |- context [wrap_uint8 0] => change (wrap_uint8 0) with 0
  | |- context [wrap_int (Zpos ?p - 1)] =>
      let v := eval vm_compute in (wrap_int (Zpos p - 1)) in
      change (wrap_int (Zpos p - 1)) with v
  end.

Ltac norm_bits :=
  progress (rewrite ?Z.land_lor_distr_l, <- ?Z.land_assoc;
            rewrite ?Z.lor_0_r, ?Z.land_0_r, ?Z.lor_0_l;
            rewrite ?lor_disjoint by reflexivity;
            rewrite ?sub_add_cancel, ?Z.sub_diag).

Ltac sym_run :=
  repeat first
    [ progress cbn [exec_bind CIDRMask Address oct0 oct1 oct2 oct3 negb orb andb]
    | eval_closed
    | norm_bits ].

Ltac merge_case :=
  eexists _, _; split; [cbv -[Z.land Z.lor]; reflexivity |];
  unfold network_of; cbn [Address CIDRMask oct0 oct1 oct2 oct3];
  match goal with
  | |- context [Netmask ?s] =>
      let v := eval vm_compute in (Netmask s) in change (Netmask s) with v
  end;
  cbn [oct0 oct1 oct2 oct3];
  rewrite ?land_255, ?Z.land_0_r by assumption;
  unfold Merge, CanMerge, Compare, addr_get, addr_set;
  sym_run; reflexivity.

(** [Split] then [Merge]: unless the mask length of the halves is a
    multiple of 8, merging the two halves of a block gives the block back,
    host bits cleared. *)
Theorem Merge_of_Split (s : IPv4Subnet) :
  wf_addr (Address s) -> 0 <= CIDRMask s < 31 -> Z.rem (CIDRMask s + 1) 8 <> 0 ->
  exists lo hi, Split s = Done (Ok (lo, hi)) /\ Merge lo hi = Done (Ok (network_of s)).
Proof.
  destruct s as [[a b c d] m]. cbn [Address CIDRMask].
  intros (Ha & Hb & Hc & Hd) Hm. cbn [oct0 oct1 oct2 oct3] in *.
  assert (0 <= m < 32) as Hm' by lia. revert Hm.
  pattern m. apply mask_cases; [| exact Hm']. clear m Hm'. intros n Hn Hm Hrem.
  do 4 (do 7 (destruct n as [| n]; [merge_case |]);
        destruct n as [| n]; [exfalso; apply Hrem; reflexivity |]).
  lia.
Qed.

Lemma Merge_of_Split_witness :
  exists lo hi,
    Split (mkSubnet (mkAddr 10 129 3 7) 14) = Done (Ok (lo, hi)) /\
    Merge lo hi = Done (Ok (network_of (mkSubnet (mkAddr 10 129 3 7) 14))).
Proof.
  apply (Merge_of_Split (mkSubnet (mkAddr 10 129 3 7) 14)).
  - unfold wf_addr, octet. simpl. lia.
  - simpl. lia.
  - discriminate.
Defined.

Lemma Compare_slash32 a b : CIDRMask a = 32 -> CIDRMask b = 32 -> Compare a b = Panic.
Proof.
  intros Ha Hb. unfold Compare. rewrite Ha, Hb. reflexivity.
Qed.

(** [Split] then [Merge] where [Compare] is blind: when the halves have a
    mask length that is a multiple of 8 below 32 (the block is a /7, /15 or
    /23) they compare equal and [Merge] refuses them; the halves of a /31
    make [Merge] panic. *)
Theorem Merge_of_Split_aligned (s : IPv4Subnet) :
  0 <= CIDRMask s < 32 -> Z.rem (CIDRMask s + 1) 8 = 0 ->
  exists lo hi,
    Split s = Done (Ok (lo, hi)) /\
    Merge lo hi = if CIDRMask s =? 31 then Panic else Done (Err ErrCannotMerge).
Proof.
  intros Hm Hrem.
  destruct (Split_halves s Hm) as (lo & hi & Hs & Hlo & Hhi & _).
  exists lo, hi. split; [exact Hs |].
  unfold Merge, CanMerge.
  destruct (Z.leb_spec (CIDRMask lo) 0); [lia |].
  destruct (Z.leb_spec (CIDRMask hi) 0); [lia |]. cbn [orb].
  destruct (Z.eqb_spec (CIDRMask s) 31) as [E | E].
  - rewrite Compare_slash32 by lia. reflexivity.
  - rewrite Compare_octet_aligned; [reflexivity | lia | lia | rewrite Hlo; exact Hrem].
Qed.

Lemma Merge_of_Split_aligned_witness :
  exists lo hi,
    Split (mkSubnet (mkAddr 10 128 0 0) 23) = Done (Ok (lo, hi)) /\
    Merge lo hi = if 23 =? 31 then Panic else Done (Err ErrCannotMerge).
Proof.
  apply (Merge_of_Split_aligned (mkSubnet (mkAddr 10 128 0 0) 23)).
  - simpl. lia.
  - reflexivity.
Defined.

(** ** The pool keeps its buckets by mask length *)

Ltac netmask_case :=
  split; [vm_compute; reflexivity | unfold wf_addr, octet; vm_compute; intuition congruence].

(** [Netmask] is the 32-bit mask with [CIDRMask] leading ones, octet by
    octet. *)
Theorem Netmask_value (s : IPv4Subnet) :
  0 <= CIDRMask s <= 32 ->
  oct0 (Netmask s) * 2 ^ 24 + oct1 (Netmask s) * 2 ^ 16 + oct2 (Netmask s) * 2 ^ 8
    + oct3 (Netmask s) = 2 ^ 32 - 2 ^ (32 - CIDRMask s) /\
  wf_addr (Netmask s).
Proof.
  destruct s as [addr m]. cbn [CIDRMask]. intros Hm.
  destruct (Z.eq_dec m 32) as [-> | Hne]; [netmask_case |].
  assert (0 <= m < 32) as Hm' by lia.
  pattern m. apply mask_cases; [| exact Hm']. clear. intros n Hn.
  do 32 (destruct n as [| n]; [netmask_case |]). lia.
Qed.

Lemma Netmask_value_witness :
  oct0 (Netmask (mkSubnet (mkAddr 10 128 0 0) 14)) * 2 ^ 24
    + oct1 (Netmask (mkSubnet (mkAddr 10 128 0 0) 14)) * 2 ^ 16
    + oct2 (Netmask (mkSubnet (mkAddr 10 128 0 0) 14)) * 2 ^ 8
    + oct3 (Netmask (mkSubnet (mkAddr 10 128 0 0) 14)) = 2 ^ 32 - 2 ^ (32 - 14) /\
  wf_addr (Netmask (mkSubnet (mkAddr 10 128 0 0) 14)).
Proof.
  apply (Netmask_value (mkSubnet (mkAddr 10 128 0 0) 14)). simpl. lia.
Defined.

Lemma Free_loop_elements (P : IPv4Subnet -> Prop) s l r :
  Free_loop s l = Done (Ok r) -> P s -> Forall P l -> Forall P r.
Proof.
  revert r. induction l as [| c next IH]; intros r; simpl.
  - intros [= <-] Hs _. repeat constructor. exact Hs.
  - destruct (Compare s c) as [n | | |]; cbn [exec_bind]; try discriminate.
    destruct (n =? 0); [discriminate |]. destruct (n <? 0).
    + intros [= <-] Hs Hl. constructor; assumption.
    + destruct (Free_loop s next) as [[rest | e] | | |]; cbn [exec_bind]; try discriminate.
      intros [= <-] Hs Hl. apply Forall_cons in Hl as [Hc Hl].
      constructor; [exact Hc | apply IH; auto].
Qed.

Lemma buckets_insert pool (k : nat) l :
  buckets_by_mask pool -> Forall (fun s => CIDRMask s = Z.of_nat k) l ->
  buckets_by_mask (<[k := l]> pool).
Proof.
  intros Hp Hl j l' Hj. destruct (decide (k = j)) as [<- | Hne].
  - destruct (decide (k < length pool)%nat) as [Hlt | Hge].
    + rewrite list_lookup_insert_eq in Hj by exact Hlt. congruence.
    + rewrite list_insert_ge in Hj by lia. eapply Hp, Hj.
  - rewrite list_lookup_insert_ne in Hj by exact Hne. eapply Hp, Hj.
Qed.

(** [Free] keeps the invariant, whatever it returns. *)
Lemma Free_keeps_buckets pool s r pool' :
  buckets_by_mask pool -> Free pool s = Done (r, pool') -> buckets_by_mask pool'.
Proof.
  intros Hp. unfold Free.
  destruct (Z.ltb_spec (CIDRMask s) 0); [intros [= _ <-]; exact Hp |].
  destruct (Z.ltb_spec 32 (CIDRMask s)); [intros [= _ <-]; exact Hp |]. cbn [orb].
  assert (CIDRMask s = Z.of_nat (Z.to_nat (CIDRMask s))) as Hs by lia.
  destruct (pool !! _) as [[| c next] |] eqn:Hb; [| | discriminate].
  - intros [= _ <-]. apply buckets_insert; [exact Hp |]. repeat constructor. exact Hs.
  - pose proof (Hp _ _ Hb) as Hl.
    destruct (Compare s c) as [n | | |]; cbn [exec_bind]; try discriminate.
    destruct (n <? 0).
    + intros [= _ <-]. apply buckets_insert; [exact Hp |]. constructor; assumption.
    + destruct (Free_loop s next) as [[rest | e] | | |] eqn:Hf; cbn [exec_bind];
        try discriminate.
      * intros [= _ <-]. apply buckets_insert; [exact Hp |].
        apply Forall_cons in Hl as [Hc Hl]. constructor; [exact Hc |].
        eapply Free_loop_elements; eauto.
      * intros [= _ <-]. exact Hp.
Qed.

Lemma Alloc_fuel_mask fuel pool size r pool' :
  buckets_by_mask pool ->
  Alloc_fuel fuel pool size = Done (r, pool') ->
  buckets_by_mask pool' /\ forall s, r = Ok s -> CIDRMask s = size /\ 0 <= size <= 32.
Proof.
  revert pool size r pool'. induction fuel as [| fuel IH]; intros pool size r pool' Hp;
    [discriminate |].
  simpl. destruct (Z.ltb_spec size 0); [intros [= <- <-]; split; [exact Hp | discriminate] |].
  destruct (Z.ltb_spec 32 size); [intros [= <- <-]; split; [exact Hp | discriminate] |].
  cbn [orb].
  destruct (pool !! _) as [[| node next] |] eqn:Hb; [| | discriminate].
  - destruct (Alloc_fuel fuel pool (size - 1)) as [[big pool1] | | |] eqn:Hrec;
      cbn [exec_bind]; try discriminate.
    destruct (IH _ _ _ _ Hp Hrec) as [Hp1 Hbig].
    destruct big as [bigSubnet | e]; [| intros [= <- <-]; split; [exact Hp1 | discriminate]].
    destruct (Hbig _ eq_refl) as [Hmask Hrange].
    destruct (Split bigSubnet) as [[[lo hi] | e] | | |] eqn:Hsp; cbn [exec_bind];
      try discriminate.
    + destruct (Free pool1 hi) as [[err pool2] | | |] eqn:Hf; cbn [exec_bind];
        try discriminate.
      pose proof (Free_keeps_buckets _ _ _ _ Hp1 Hf) as Hp2.
      destruct err as [e |].
      * destruct (Free pool2 bigSubnet) as [[x pool3] | | |] eqn:Hf2; cbn [exec_bind];
          try discriminate.
        intros [= <- <-]. split; [eapply Free_keeps_buckets; eauto | discriminate].
      * intros [= <- <-]. split; [exact Hp2 |]. intros s [= <-].
        destruct (Split_halves bigSubnet) as (lo' & hi' & Hs' & Hlo & _); [lia |].
        rewrite Hsp in Hs'. injection Hs' as <- <-. lia.
    + destruct (Free pool1 bigSubnet) as [[x pool3] | | |] eqn:Hf2; cbn [exec_bind];
        try discriminate.
      intros [= <- <-]. split; [eapply Free_keeps_buckets; eauto | discriminate].
  - intros [= <- <-]. pose proof (Hp _ _ Hb) as Hl.
    apply Forall_cons in Hl as [Hn Hl]. split.
    + apply buckets_insert; assumption.
    + intros s [= <-]. lia.
Qed.

(** [Alloc] returns a subnet whose mask length is the requested one, and
    keeps every bucket to subnets of its own mask length. *)
Theorem Alloc_returns_requested_mask (pool pool' : list (list IPv4Subnet)) (size : Z)
    (s : IPv4Subnet) :
  buckets_by_mask pool ->
  Alloc pool size = Done (Ok s, pool') ->
  CIDRMask s = size /\ buckets_by_mask pool'.
Proof.
  intros Hp Ha. destruct (Alloc_fuel_mask _ _ _ _ _ Hp Ha) as [Hp' Hs].
  split; [apply Hs; reflexivity | exact Hp'].
Qed.

Lemma buckets_by_mask_single (C : IPv4Subnet) :
  0 <= CIDRMask C <= 32 -> buckets_by_mask (<[Z.to_nat (CIDRMask C) := [C]]> empty_pool).
Proof.
  intros Hr. apply buckets_insert.
  - intros k l Hk. apply lookup_replicate in Hk as [-> _]. constructor.
  - repeat constructor. lia.
Qed.

Lemma Alloc_returns_requested_mask_witness :
  exists pool',
    Alloc (<[14%nat := [mkSubnet (mkAddr 10 128 0 0) 14]]> empty_pool) 24
      = Done (Ok (mkSubnet (mkAddr 10 128 0 0) 24), pool') /\
    CIDRMask (mkSubnet (mkAddr 10 128 0 0) 24) = 24 /\ buckets_by_mask pool'.
Proof.
  eexists. split; [vm_compute; reflexivity |].
  apply (Alloc_returns_requested_mask
           (<[14%nat := [mkSubnet (mkAddr 10 128 0 0) 14]]> empty_pool)).
  - apply (buckets_by_mask_single (mkSubnet (mkAddr 10 128 0 0) 14)). simpl. lia.
  - vm_compute. reflexivity.
Defined.

(** * Properties of the reconciler *)

Local Open Scope string_scope.
Local Open Scope Z_scope.

(** ** Bootstrap *)

(** The priorities of the entries of a template. *)
Lemma bootstrap_returns :
  exists c v, bootstrap = Done (c, v) /\
    ingressAclTemplateID c = "id-0" /\ egressAclTemplateID c = "id-3" /\
    nextAvailablePriority c = 0 /\ namespaces c = ∅ /\ zones c = None.
Proof. eexists _, _. split; [vm_compute; reflexivity |]. repeat split. Qed.

(** C7 (baseline entries).  [CreateEgressAclEntries] posts its drop entry
    under the id of the ingress template: after bootstrap the ingress
    template holds the forward entry at priority 0 and the drop entry at
    priority 10^9, the egress template the forward entry only. *)
Theorem C7_egress_template_lacks_drop_entry :
  exists c v, bootstrap = Done (c, v) /\
    List.map (fun e => (acl_Action e, acl_Priority e))
      (entries_of v (EpIngressAclEntries (ingressAclTemplateID c)))
      = [("FORWARD", 0); ("DROP", 1000000000)] /\
    List.map (fun e => (acl_Action e, acl_Priority e))
      (entries_of v (EpEgressAclEntries (egressAclTemplateID c)))
      = [("FORWARD", 0)].
Proof. eexists _, _. split; [vm_compute; reflexivity |]. split; reflexivity. Qed.

(** ** Namespace events *)

(** C6 as stated fails.  After bootstrap (priority counter at 0) the zone
    of "alpha" is created and [CreateSpecificZoneAcls] is run for it, as
    [HandleNsEvent] does for an [Added] event: the forward entry of the
    zone is at priority 300 in both templates, and no entry is at priority
    301. *)
Lemma C6_priorities_counterexample :
  exists st0 zoneID st1 c v,
    bootstrap = Done st0 /\
    nextAvailablePriority (fst st0) = 0 /\
    CreateZone vsd_serve (domainID (fst st0)) "alpha" st0 = Done (Ok zoneID, st1) /\
    nextAvailablePriority (fst st1) = 0 /\
    CreateSpecificZoneAcls vsd_serve "alpha" zoneID st1 = Done (None, (c, v)) /\
    List.map (fun e => (acl_LocationID e, acl_Priority e))
      (List.filter (fun e => String.eqb (acl_LocationType e) "ZONE")
                   (entries_of v (EpIngressAclEntries (ingressAclTemplateID c))))
      = [(zoneID, 300)] /\
    List.map (fun e => (acl_LocationID e, acl_Priority e))
      (List.filter (fun e => String.eqb (acl_LocationType e) "ZONE")
                   (entries_of v (EpEgressAclEntries (egressAclTemplateID c))))
      = [(zoneID, 300)] /\
    ~ In 301 (List.map acl_Priority
                (entries_of v (EpIngressAclEntries (ingressAclTemplateID c)) ++
                 entries_of v (EpEgressAclEntries (egressAclTemplateID c)))).
Proof.
  eexists _, _, _, _, _. split; [vm_compute; reflexivity |].
  split; [reflexivity |]. split; [vm_compute; reflexivity |].
  split; [reflexivity |]. split; [vm_compute; reflexivity |].
  split; [vm_compute; reflexivity |]. split; [vm_compute; reflexivity |].
  vm_compute. intros H. repeat (destruct H as [H | H]; [discriminate |]). exact H.
Qed.

(** ** Service events *)

(** C8 (service deletion).  [HandleServiceEvent] deletes the key [nmID], the
    identifier of the macro, from the map keyed by service name: after
    [Deleted] for alpha/web the macro is gone from the VSD and the map of
    "alpha" still holds the service "web". *)
Theorem C8_deleted_service_stays_in_macro_map (pat : string) :
  exists st0 st1 st2 st3 nsd,
    bootstrap_with_zones = Done st0 /\
    HandleNsEvent vsd_serve pat (mkNsEvent Added "alpha") st0 = Done (None, st1) /\
    HandleServiceEvent vsd_serve (web_event Added) st1 = Done (None, st2) /\
    objects_of (snd st2) is_macros <> [] /\
    HandleServiceEvent vsd_serve (web_event Deleted) st2 = Done (None, st3) /\
    objects_of (snd st3) is_macros = [] /\
    namespaces (fst st3) !! "alpha" = Some nsd /\
    NetworkMacros nsd !! "web" = Some "id-10".
Proof.
  eexists _, _, _, _, _. split; [vm_compute; reflexivity |].
  split; [vm_compute; reflexivity |]. split; [vm_compute; reflexivity |].
  split; [vm_compute; discriminate |].
  split; [vm_compute; reflexivity |]. split; [vm_compute; reflexivity |].
  split; vm_compute; reflexivity.
Qed.

(** C6, amended.  Run on the client as bootstrap leaves it (priority
    counter at 0), for any namespace name and zone id,
    [CreateSpecificZoneAcls] draws one allocator value for the zone and
    posts the same entry to both templates: the ingress and the egress
    forward entry of the zone are both at priority 300. *)
Theorem C6_specific_zone_entries_share_priority (name zoneID : string) :
  exists st0 c v,
    bootstrap = Done st0 /\
    nextAvailablePriority (fst st0) = 0 /\
    CreateSpecificZoneAcls vsd_serve name zoneID st0 = Done (None, (c, v)) /\
    List.map (fun e => (acl_Action e, acl_Priority e))
      (List.filter (fun e => String.eqb (acl_LocationType e) "ZONE")
                   (entries_of v (EpIngressAclEntries (ingressAclTemplateID c))))
      = [("FORWARD", 300)] /\
    List.map (fun e => (acl_Action e, acl_Priority e))
      (List.filter (fun e => String.eqb (acl_LocationType e) "ZONE")
                   (entries_of v (EpEgressAclEntries (egressAclTemplateID c))))
      = [("FORWARD", 300)].
Proof.
  eexists _, _, _. split; [vm_compute; reflexivity |].
  split; [reflexivity |]. split; [vm_compute; reflexivity |].
  split; vm_compute; reflexivity.
Qed.

(** ** Natural keys *)

(** C9 (natural-key mismatch).  [GetNetworkMacroID] compares the name of the
    record only: a [200] answer whose record carries the requested name is
    accepted and its id returned, whatever its ipType, address and
    netmask. *)
Theorem C9_macro_accepted_on_name_alone {Vsd : Type}
    (serve : Request -> Vsd -> option Response * Vsd)
    (enterpriseID : string) (networkMacro : VsdNetworkMacro)
    (c : NuageVsdClient) (v v' : Vsd) (resp : Response) :
  serve (Get (EpNetworkMacros enterpriseID)
             (FMacro (nm_Name networkMacro) (nm_IPType networkMacro)
                     (nm_Address networkMacro) (nm_Netmask networkMacro))) v
    = (Some resp, v') ->
  status resp = 200 ->
  body_Name (body resp) = nm_Name networkMacro ->
  GetNetworkMacroID serve enterpriseID networkMacro (c, v)
    = Done (Ok (body_ID (body resp)), (c, v')).
Proof.
  intros Hs H200 Hname.
  unfold GetNetworkMacroID, bind, session. cbn [fst snd exec_bind].
  rewrite Hs. cbn [fst snd]. rewrite H200, Hname, String.eqb_refl. reflexivity.
Qed.

Lemma C9_macro_accepted_on_name_alone_witness :
  let asked := mkNetworkMacro EmptyString "web" "IPV4" "172.30.1.5" "255.255.255.255" in
  let found := mkNetworkMacro "nm-9" "web" "IPV6" "10.9.9.9" "255.0.0.0" in
  let serve := fun (_ : Request) (u : unit) => (Some (mkResponse 200 (BNetworkMacro found)), u) in
  nm_Address found <> nm_Address asked /\
  GetNetworkMacroID serve "enterprise-1" asked (client_blank, tt)
    = Done (Ok "nm-9", (client_blank, tt)).
Proof.
  split; [discriminate |].
  exact (C9_macro_accepted_on_name_alone
           (fun (_ : Request) (u : unit) =>
              (Some (mkResponse 200
                       (BNetworkMacro (mkNetworkMacro "nm-9" "web" "IPV6" "10.9.9.9" "255.0.0.0"))),
               u))
           "enterprise-1"
           (mkNetworkMacro EmptyString "web" "IPV4" "172.30.1.5" "255.255.255.255")
           client_blank tt tt _ eq_refl eq_refl eq_refl).
Defined.

(** * Further properties of the client *)

Section ClientFacts.

Context {Vsd : Type}.
Variable serve : Request -> Vsd -> option Response * Vsd.
Variable pat : string.

Local Open Scope string_scope.
Local Open Scope Z_scope.

Lemma session_eq (req : Request) (c : NuageVsdClient) (v : Vsd) :
  session serve req (c, v) = Done (fst (serve req v), (c, snd (serve req v))).
Proof. reflexivity. Qed.

Lemma keeps_client_ret {A : Type} (a : A) : keeps_client (@ret Vsd A a).
Proof. intros c v r c' v' [= _ <- _]. reflexivity. Qed.

Lemma keeps_client_bind {A B : Type} (m : @M Vsd A) (k : A -> @M Vsd B) :
  keeps_client m -> (forall a, keeps_client (k a)) -> keeps_client (bind m k).
Proof.
  intros Hm Hk c v r c' v'. unfold bind.
  destruct (m (c, v)) as [[a [c1 v1]] | | |] eqn:E; cbn [exec_bind fst snd]; try discriminate.
  intros H. apply Hk in H. apply Hm in E. congruence.
Qed.

Lemma keeps_client_session req : keeps_client (session serve req).
Proof. intros c v r c' v'. rewrite session_eq. intros [= _ <- _]. reflexivity. Qed.

Ltac keeps :=
  repeat first
    [ apply keeps_client_ret
    | apply keeps_client_session
    | apply keeps_client_bind; [| intros ?]
    | match goal with
      | |- keeps_client (match ?x with _ => _ end) => destruct x
      | |- keeps_client (if ?x then _ else _) => destruct x
      end ].

Lemma keeps_client_get_id_by_name ep name what :
  keeps_client (get_id_by_name serve ep name what).
Proof. unfold get_id_by_name. keeps. Qed.

Lemma keeps_client_CreateNetworkMacroGroup ent zoneName :
  keeps_client (CreateNetworkMacroGroup serve ent zoneName).
Proof.
  unfold CreateNetworkMacroGroup, GetNetworkMacroGroupID. keeps.
Qed.

Lemma keeps_client_GetAclEntry t ingress e : keeps_client (GetAclEntry serve t ingress e).
Proof. unfold GetAclEntry. keeps. Qed.

Lemma keeps_client_CreateAclEntry t ingress e : keeps_client (CreateAclEntry serve t ingress e).
Proof. unfold CreateAclEntry. keeps. Qed.


Lemma bind_inv {A B : Type} (m : @M Vsd A) (k : A -> @M Vsd B) st r :
  bind m k st = Done r -> exists a st1, m st = Done (a, st1) /\ k a st1 = Done r.
Proof.
  unfold bind. destruct (m st) as [[a st1] | | |]; cbn [exec_bind fst snd]; try discriminate.
  eauto.
Qed.

(** Take the next step of a run recorded in hypothesis [H]. *)
Ltac mstep H a c v E := apply bind_inv in H as (a & [c v] & E & H).

Ltac mclient E := unfold client in E; cbn [fst snd] in E; injection E as <- <- <-.
Ltac mupdate E := unfold update in E; cbn [fst snd] in E; injection E as <- <-.

(** After [CreateSpecificZoneAcls] has succeeded the counter is not one more
    than it was: it is one more than the priority of the entries, offset
    300 included.  From a counter at 0 the next zone gets priority 601. *)
Theorem CreateSpecificZoneAcls_counter (zoneName zoneID : string)
    (c c' : NuageVsdClient) (v v' : Vsd) :
  CreateSpecificZoneAcls serve zoneName zoneID (c, v) = Done (None, (c', v')) ->
  nextAvailablePriority c'
    = wrap_int (wrap_int (300 + nextAvailablePriority c) + 1).
Proof.
  intros H. unfold CreateSpecificZoneAcls in H.
  mstep H c0 c1 v1 E. mclient E.
  mstep H r c1 v1 E. apply keeps_client_CreateNetworkMacroGroup in E as ->.
  destruct r as [nmgid | e]; [| discriminate].
  mstep H u c2 v2 E. unfold record_macro_group in E. mupdate E.
  mstep H c0 c3 v3 E. mclient E.
  mstep H next c4 v4 E. unfold NextAvailablePriority in E.
  mstep E c0 c5 v5 E0. mclient E0.
  mstep E u c6 v6 E0. unfold IncrementNextAvailablePriority in E0. mupdate E0.
  unfold ret in E. injection E as <- <- <-.
  mstep H c0 c7 v7 E. mclient E.
  mstep H r1 c8 v8 E. apply keeps_client_CreateAclEntry in E as ->.
  destruct r1 as [id1 | e]; [| discriminate].
  mstep H u c9 v9 E. unfold SetNextAvailablePriority in E. mupdate E.
  mstep H c0 c10 v10 E. mclient E.
  mstep H r2 c11 v11 E. apply keeps_client_CreateAclEntry in E as ->.
  destruct r2 as [id2 | e]; [| discriminate].
  mstep H u c12 v12 E. unfold SetNextAvailablePriority in E. mupdate E.
  unfold ret in H. injection H as <- <-.
  cbn [nextAvailablePriority set_nextAvailablePriority acl_Priority].
  destruct (namespaces c !! zoneName); reflexivity.
Qed.


(** [HandleNsEvent] writes [nvsdc.zones[name]] once the zone is created, and
    nothing in the listing makes that map: with [zones] nil, an [Added]
    event for an untracked namespace panics after the zone exists on the
    VSD. *)
Theorem HandleNsEvent_Added_nil_zones_panics (name : string) (c : NuageVsdClient)
    (v v' : Vsd) (resp : Response) :
  namespaces c !! name = None ->
  zones c = None ->
  serve (Post (EpZones (domainID c))
              (BObject (mkObject EmptyString name
                 ("Auto-generated for OpenShift project " +:+ dquote +:+ name +:+ dquote))))
        v = (Some resp, v') ->
  status resp = 201 ->
  HandleNsEvent serve pat (mkNsEvent Added name) (c, v) = Panic.
Proof.
  intros Hns Hz Hs H201.
  unfold HandleNsEvent. cbn [ns_Type ns_Name].
  unfold bind at 1. unfold client at 1. cbn [exec_bind fst snd]. rewrite Hns.
  unfold bind at 1. unfold CreateZone, bind at 1. rewrite session_eq, Hs.
  cbn [exec_bind fst snd]. rewrite H201. cbn [Z.eqb Pos.eqb]. unfold ret at 1.
  cbn [exec_bind fst snd]. unfold bind at 1. unfold client at 1. cbn [exec_bind fst snd].
  rewrite Hz. reflexivity.
Qed.

(** The general form of C8: a [Deleted] service event whose macro the VSD
    deletes leaves the map of the namespace with the key [nmID] deleted;
    the entry of the service stays unless the service is named like the
    identifier of its macro. *)
Theorem HandleServiceEvent_Deleted_removes_macro_id (ns svc ip : string)
    (ann : gmap string string) (c : NuageVsdClient) (v v' : Vsd) (nsd : NamespaceData)
    (nmID : string) (resp : Response) :
  namespaces c !! ns = Some nsd ->
  NetworkMacros nsd !! svc = Some nmID ->
  serve (Delete (EpEnterpriseNetwork nmID)) v = (Some resp, v') ->
  status resp = 204 ->
  exists c',
    HandleServiceEvent serve (mkServiceEvent Deleted ns svc ip ann) (c, v)
      = Done (None, (c', v')) /\
    namespaces c' !! ns
      = Some (mkNamespaceData (ZoneID nsd) (NetworkMacroGroupID nsd)
                              (delete nmID (NetworkMacros nsd))) /\
    (nmID <> svc -> delete nmID (NetworkMacros nsd) !! svc = Some nmID).
Proof.
  intros Hns Hm Hs H204. eexists. split; [| split].
  - unfold HandleServiceEvent. cbn [svc_Type svc_Namespace svc_Name].
    unfold bind at 1. unfold client at 1. cbn [exec_bind fst snd]. rewrite Hns, Hm.
    unfold bind at 1. unfold DeleteNetworkMacro, delete_resource, bind at 1.
    rewrite session_eq, Hs. cbn [exec_bind fst snd]. rewrite H204. cbn [Z.eqb Pos.eqb].
    unfold ret at 1. cbn [exec_bind fst snd].
    unfold bind, update, ret. cbn [exec_bind fst snd]. rewrite Hns. reflexivity.
  - cbn [namespaces set_namespaces]. apply lookup_insert_eq.
  - intros Hne. rewrite lookup_delete_ne by exact Hne. exact Hm.
Qed.

(** A [Deleted] service event for a namespace that is not tracked, or for a
    service without a recorded macro, sends nothing and changes nothing. *)
Theorem HandleServiceEvent_Deleted_unknown (ns svc ip : string) (ann : gmap string string)
    (c : NuageVsdClient) (v : Vsd) :
  (namespaces c !! ns = None \/
   exists nsd, namespaces c !! ns = Some nsd /\ NetworkMacros nsd !! svc = None) ->
  HandleServiceEvent serve (mkServiceEvent Deleted ns svc ip ann) (c, v) = Done (None, (c, v)).
Proof.
  intros H. unfold HandleServiceEvent. cbn [svc_Type svc_Namespace svc_Name].
  unfold bind at 1. unfold client at 1. cbn [exec_bind fst snd].
  destruct H as [-> | (nsd & -> & ->)]; reflexivity.
Qed.

(** An [Added] service event with a [zone] annotation and no macro-group
    annotation is refused before anything is sent: with the incorrect
    annotation error when the zone is a tracked namespace other than the
    one of the service, with the insufficient annotation error when the
    zone is not tracked. *)
Theorem HandleServiceEvent_zone_annotation_refused (ns svc ip z : string)
    (ann : gmap string string) (c : NuageVsdClient) (v : Vsd) :
  ann !! "network-macro-group.id" = None ->
  ann !! "network-macro-group.name" = None ->
  ann !! "zone" = Some z ->
  (is_Some (namespaces c !! z) -> z <> ns) ->
  HandleServiceEvent serve (mkServiceEvent Added ns svc ip ann) (c, v)
    = Done (Some (match namespaces c !! z with
                  | Some _ => ErrIncorrectAnnotation
                  | None => ErrInsufficientAnnotation
                  end), (c, v)).
Proof.
  intros Hid Hname Hz Hne.
  unfold HandleServiceEvent. cbn [svc_Type svc_Namespace svc_Name svc_NuageAnnotations].
  unfold bind at 1. unfold client at 1. cbn [exec_bind fst snd].
  rewrite Hid, Hname. unfold bind at 1. unfold ret at 1. cbn [exec_bind fst snd].
  unfold bind at 1. unfold client at 1. cbn [exec_bind fst snd]. rewrite Hz.
  destruct (namespaces c !! z) as [nsd |] eqn:Ez.
  - assert (z <> ns) as Hzn by (apply Hne; eauto).
    apply String.eqb_neq in Hzn. rewrite Hzn. reflexivity.
  - reflexivity.
Qed.

(** An [Added] service event for a namespace that is not tracked panics once
    its macro is created: the macro id is stored in the map of a record
    that does not exist. *)
Theorem HandleServiceEvent_Added_untracked_panics (ns svc ip : string)
    (c : NuageVsdClient) (v v' : Vsd) (resp : Response) :
  namespaces c !! ns = None ->
  serve (Post (EpEnterpriseNetworks (enterpriseID c))
              (BNetworkMacro
                 (mkNetworkMacro EmptyString
                    ("NetworkMacro for service: " +:+ ns +:+ "/" +:+ svc)
                    "IPV4" ip "255.255.255.255")))
        v = (Some resp, v') ->
  status resp = 201 ->
  HandleServiceEvent serve (mkServiceEvent Added ns svc ip ∅) (c, v) = Panic.
Proof.
  intros Hns Hs H201.
  unfold HandleServiceEvent. cbn [svc_Type svc_Namespace svc_Name svc_NuageAnnotations
                                    svc_ClusterIP].
  unfold bind at 1. unfold client at 1. cbn [exec_bind fst snd].
  rewrite !lookup_empty. unfold bind at 1. unfold ret at 1. cbn [exec_bind fst snd].
  unfold bind at 1. unfold client at 1. cbn [exec_bind fst snd].
  change (EmptyString =? EmptyString)%string with true. cbv iota.
  unfold ns_NetworkMacroGroupID. rewrite Hns.
  unfold bind at 1. unfold CreateNetworkMacro, bind at 1. rewrite session_eq, Hs.
  cbn [exec_bind fst snd]. rewrite H201. cbn [Z.eqb Pos.eqb]. unfold ret at 1.
  cbn [exec_bind fst snd]. unfold bind at 1. unfold client at 1. cbn [exec_bind fst snd].
  rewrite Hns. reflexivity.
Qed.

(** [GetZoneID] returns an id only for a [200] answer whose record carries
    the requested name, and the id is the one of that record. *)
Theorem GetZoneID_sound (domain name id : string) (c c' : NuageVsdClient) (v v' : Vsd) :
  GetZoneID serve domain name (c, v) = Done (Ok id, (c', v')) ->
  exists resp,
    serve (Get (EpZones domain) (FName name)) v = (Some resp, v') /\
    status resp = 200 /\ body_Name (body resp) = name /\ id = body_ID (body resp) /\ c' = c.
Proof.
  unfold GetZoneID, get_id_by_name, bind. rewrite session_eq. cbn [exec_bind fst snd].
  destruct (serve (Get (EpZones domain) (FName name)) v) as [[resp |] v1] eqn:Hs;
    cbn [fst snd]; [| discriminate].
  destruct (Z.eqb_spec (status resp) 200) as [H200 | H200]; [| discriminate].
  destruct (String.eqb_spec (body_Name (body resp)) name) as [Hn | Hn].
  - intros [= <- <- <-]. exists resp. auto.
  - destruct (String.eqb (body_Name (body resp)) EmptyString); discriminate.
Qed.

(** [GetZoneID] on the zero-valued element the VSD sends for an empty list:
    the zone is reported as not found. *)
Theorem GetZoneID_not_found (domain name : string) (c : NuageVsdClient) (v v' : Vsd)
    (resp : Response) :
  serve (Get (EpZones domain) (FName name)) v = (Some resp, v') ->
  status resp = 200 -> body_Name (body resp) = EmptyString -> name <> EmptyString ->
  GetZoneID serve domain name (c, v) = Done (Err (ErrNotFound "Zone"), (c, v')).
Proof.
  intros Hs H200 Hb Hn.
  unfold GetZoneID, get_id_by_name, bind. rewrite session_eq, Hs. cbn [exec_bind fst snd].
  rewrite H200, Hb. cbn [Z.eqb Pos.eqb].
  destruct (String.eqb_spec EmptyString name) as [E | E]; [congruence |]. reflexivity.
Qed.

(** [GetSubnetID] on a [200] answer with another address reports the status
    [200] itself as unexpected. *)
Theorem GetSubnetID_wrong_address (zone : string) (subnet : IPv4Subnet)
    (c : NuageVsdClient) (v v' : Vsd) (resp : Response) :
  serve (Get (EpSubnets zone) (FAddress (addr_String (Address subnet)))) v = (Some resp, v') ->
  status resp = 200 -> body_Address (body resp) <> addr_String (Address subnet) ->
  GetSubnetID serve zone subnet (c, v) = Done (Err (ErrUnexpectedStatus 200), (c, v')).
Proof.
  intros Hs H200 Ha.
  unfold GetSubnetID, bind. rewrite session_eq, Hs. cbn [exec_bind fst snd].
  apply String.eqb_neq in Ha. rewrite H200, Ha. cbn [Z.eqb Pos.eqb andb].
  unfold VsdErrorResponse. rewrite H200. reflexivity.
Qed.

Lemma CreateAclEntry_returns t ingress e st :
  exists r st', CreateAclEntry serve t ingress e st = Done (r, st').
Proof.
  destruct st as [c v]. unfold CreateAclEntry, bind. rewrite session_eq.
  cbn [exec_bind fst snd].
  destruct (fst (serve _ v)) as [resp |]; [| unfold ret; eauto].
  destruct (status resp =? 201); [unfold ret; eauto |].
  destruct (status resp =? 409); [| unfold ret; eauto].
  unfold GetAclEntry, bind. rewrite session_eq. cbn [exec_bind fst snd].
  destruct (fst (serve _ _)) as [resp' |]; [| unfold ret; cbn [exec_bind fst snd]; eauto].
  destruct (status resp' =? 200); [| unfold ret; cbn [exec_bind fst snd]; eauto].
  destruct (body resp'); unfold ret; cbn [exec_bind fst snd]; eauto.
Qed.

(** [CreateEgressAclEntries] reports the failure of its first entry only:
    once the forward entry is created the call returns nil, whether the
    drop entry could be created or not. *)
Theorem CreateEgressAclEntries_ignores_drop_failure (c c1 : NuageVsdClient) (v v1 : Vsd)
    (id : string) :
  CreateAclEntry serve (egressAclTemplateID c) false baseline_forward_entry (c, v)
    = Done (Ok id, (c1, v1)) ->
  exists st', CreateEgressAclEntries serve (c, v) = Done (None, st').
Proof.
  intros H1. unfold CreateEgressAclEntries.
  unfold bind at 1. unfold client at 1. cbn [exec_bind fst snd].
  unfold bind at 1. rewrite H1. cbn [exec_bind fst snd].
  unfold bind at 1. unfold client at 1. cbn [exec_bind fst snd].
  destruct (CreateAclEntry_returns (ingressAclTemplateID c1) false baseline_drop_entry (c1, v1))
    as (r & st' & Hr).
  unfold bind, ret. rewrite Hr. cbn [exec_bind fst snd]. eauto.
Qed.

(** Replaying [Added] for a tracked namespace overwrites its record: when
    the event succeeds, the namespace is left with an empty macro-group id
    and an empty map of service macros. *)
Theorem HandleNsEvent_replay_resets_record (name : string) (nsd : NamespaceData)
    (c c' : NuageVsdClient) (v v' : Vsd) :
  namespaces c !! name = Some nsd ->
  HandleNsEvent serve pat (mkNsEvent Added name) (c, v) = Done (None, (c', v')) ->
  exists id, namespaces c' !! name = Some (mkNamespaceData id EmptyString ∅).
Proof.
  intros Hns H. unfold HandleNsEvent in H. cbn [ns_Type ns_Name] in H.
  mstep H c0 c1 v1 E. mclient E. rewrite Hns in H.
  mstep H z c2 v2 E. destruct z as [id | e]; [| discriminate].
  destruct (String.eqb id EmptyString); [discriminate |].
  mstep H err c3 v3 E3. destruct err as [e |]; [discriminate |].
  mstep H u c4 v4 E4. mupdate E4. unfold ret in H. injection H as <- <-.
  exists id. cbn [namespaces set_namespaces]. apply lookup_insert_eq.
Qed.

End ClientFacts.

Local Open Scope string_scope.
Local Open Scope Z_scope.

Lemma CreateSpecificZoneAcls_counter_witness :
  exists c' v',
    CreateSpecificZoneAcls vsd_serve "beta" "zone-9" (fst alpha_tracked, snd alpha_tracked)
      = Done (None, (c', v')) /\
    nextAvailablePriority (fst alpha_tracked) = 301 /\
    nextAvailablePriority c'
      = wrap_int (wrap_int (300 + nextAvailablePriority (fst alpha_tracked)) + 1).
Proof.
  eexists _, _.
  assert (CreateSpecificZoneAcls vsd_serve "beta" "zone-9"
            (fst alpha_tracked, snd alpha_tracked) = Done (None, (_, _))) as Hrun
    by (vm_compute; reflexivity).
  split; [exact Hrun |]. split; [reflexivity |].
  exact (CreateSpecificZoneAcls_counter vsd_serve "beta" "zone-9" _ _ _ _ Hrun).
Defined.

Lemma HandleNsEvent_Added_nil_zones_panics_witness :
  HandleNsEvent (canned (mkResponse 201 (BObject (mkObject "zone-1" "alpha" EmptyString))))
                "INHERITED" (mkNsEvent Added "alpha") (client_blank, tt) = Panic.
Proof.
  apply (HandleNsEvent_Added_nil_zones_panics
           (canned (mkResponse 201 (BObject (mkObject "zone-1" "alpha" EmptyString))))
           "INHERITED" "alpha" client_blank tt tt
           (mkResponse 201 (BObject (mkObject "zone-1" "alpha" EmptyString))));
    reflexivity.
Defined.

Lemma HandleServiceEvent_Deleted_removes_macro_id_witness :
  exists nsd c',
    namespaces (fst alpha_web_tracked) !! "alpha" = Some nsd /\
    NetworkMacros nsd !! "web" = Some "id-10" /\
    HandleServiceEvent (canned (mkResponse 204 BNone))
      (mkServiceEvent Deleted "alpha" "web" "172.30.1.5" ∅) (fst alpha_web_tracked, tt)
      = Done (None, (c', tt)) /\
    namespaces c' !! "alpha"
      = Some (mkNamespaceData (ZoneID nsd) (NetworkMacroGroupID nsd)
                              (delete "id-10" (NetworkMacros nsd))) /\
    ("id-10" <> "web" -> delete "id-10" (NetworkMacros nsd) !! "web" = Some "id-10").
Proof.
  eexists. 
  assert (namespaces (fst alpha_web_tracked) !! "alpha" = Some _) as Hns
    by (vm_compute; reflexivity).
  destruct (HandleServiceEvent_Deleted_removes_macro_id
              (canned (mkResponse 204 BNone)) "alpha" "web" "172.30.1.5" ∅
              (fst alpha_web_tracked) tt tt _ "id-10" (mkResponse 204 BNone)
              Hns eq_refl eq_refl eq_refl) as (c' & H1 & H2 & H3).
  exists c'. split; [exact Hns |]. split; [reflexivity |]. auto.
Defined.

Lemma HandleServiceEvent_Deleted_unknown_witness :
  HandleServiceEvent vsd_serve (mkServiceEvent Deleted "alpha" "db" "172.30.1.9" ∅)
    alpha_web_tracked = Done (None, alpha_web_tracked).
Proof.
  apply (HandleServiceEvent_Deleted_unknown vsd_serve "alpha" "db" "172.30.1.9" ∅
           (fst alpha_web_tracked) (snd alpha_web_tracked)).
  right. eexists. split; vm_compute; reflexivity.
Defined.

Lemma HandleServiceEvent_zone_annotation_refused_witness :
  HandleServiceEvent vsd_serve
    (mkServiceEvent Added "beta" "web" "172.30.1.5" {["zone" := "alpha"]}) alpha_tracked
    = Done (Some ErrIncorrectAnnotation, alpha_tracked).
Proof.
  refine (eq_trans
            (HandleServiceEvent_zone_annotation_refused vsd_serve "beta" "web" "172.30.1.5"
               "alpha" {["zone" := "alpha"]} (fst alpha_tracked) (snd alpha_tracked)
               _ _ _ _) _).
  - vm_compute. reflexivity.
  - vm_compute. reflexivity.
  - vm_compute. reflexivity.
  - intros _. discriminate.
  - vm_compute. reflexivity.
Defined.

Lemma HandleServiceEvent_Added_untracked_panics_witness :
  HandleServiceEvent vsd_serve (mkServiceEvent Added "beta" "web" "172.30.1.5" ∅)
    alpha_tracked = Panic.
Proof.
  eapply (HandleServiceEvent_Added_untracked_panics vsd_serve "beta" "web" "172.30.1.5"
            (fst alpha_tracked) (snd alpha_tracked)).
  - vm_compute. reflexivity.
  - vm_compute. reflexivity.
  - reflexivity.
Defined.

Lemma GetZoneID_sound_witness :
  exists resp,
    vsd_serve (Get (EpZones "domain-1") (FName "alpha")) (snd alpha_tracked)
      = (Some resp, snd alpha_tracked) /\
    status resp = 200 /\ body_Name (body resp) = "alpha" /\ "id-5" = body_ID (body resp) /\
    fst alpha_tracked = fst alpha_tracked.
Proof.
  apply (GetZoneID_sound vsd_serve "domain-1" "alpha" "id-5" (fst alpha_tracked)
           (fst alpha_tracked) (snd alpha_tracked) (snd alpha_tracked)).
  vm_compute. reflexivity.
Defined.

Lemma GetZoneID_not_found_witness :
  GetZoneID vsd_serve "domain-1" "beta" alpha_tracked
    = Done (Err (ErrNotFound "Zone"), alpha_tracked).
Proof.
  apply (GetZoneID_not_found vsd_serve "domain-1" "beta" (fst alpha_tracked)
           (snd alpha_tracked) (snd alpha_tracked) (mkResponse 200 BNone)).
  - vm_compute. reflexivity.
  - reflexivity.
  - reflexivity.
  - discriminate.
Defined.

Lemma GetSubnetID_wrong_address_witness :
  GetSubnetID (canned (mkResponse 200 BNone)) "id-5" (mkSubnet (mkAddr 10 128 0 0) 24)
    (client_blank, tt) = Done (Err (ErrUnexpectedStatus 200), (client_blank, tt)).
Proof.
  apply (GetSubnetID_wrong_address (canned (mkResponse 200 BNone)) "id-5"
           (mkSubnet (mkAddr 10 128 0 0) 24) client_blank tt tt (mkResponse 200 BNone)).
  - reflexivity.
  - reflexivity.
  - vm_compute. discriminate.
Defined.

Lemma CreateEgressAclEntries_ignores_drop_failure_witness :
  exists c v st',
    Init_acl_templates vsd_serve (client_blank, vsd_initial) = Done (tt, (c, v)) /\
    CreateAclEntry vsd_serve (ingressAclTemplateID c) false baseline_drop_entry (c, v)
      = Done (Err (ErrUnexpectedStatus 404), (c, v)) /\
    CreateEgressAclEntries vsd_serve
      (set_egressAclTemplateID "id-3" (set_ingressAclTemplateID "id-0" client_blank),
       mkVsd 4 ["enterprise-1"] ["domain-1"]
             [mkResource (EpIngressAclTemplates "domain-1") "id-0"
                (BObject (mkObject "id-0" "Auto-generated Ingress Policies" EmptyString));
              mkResource (EpEgressAclTemplates "domain-1") "id-3"
                (BObject (mkObject "id-3" "Auto-generated Egress Policies" EmptyString))] [])
      = Done (None, st').
Proof.
  eexists _, _. 
  destruct (CreateEgressAclEntries_ignores_drop_failure vsd_serve
              (set_egressAclTemplateID "id-3" (set_ingressAclTemplateID "id-0" client_blank))
              _
              (mkVsd 4 ["enterprise-1"] ["domain-1"]
                 [mkResource (EpIngressAclTemplates "domain-1") "id-0"
                    (BObject (mkObject "id-0" "Auto-generated Ingress Policies" EmptyString));
                  mkResource (EpEgressAclTemplates "domain-1") "id-3"
                    (BObject (mkObject "id-3" "Auto-generated Egress Policies" EmptyString))] [])
              _ "id-4" ltac:(vm_compute; reflexivity)) as [st' H].
  exists st'. split; [vm_compute; reflexivity |]. split; [vm_compute; reflexivity |]. exact H.
Defined.

Lemma HandleNsEvent_replay_resets_record_witness :
  exists nsd c' v' id,
    namespaces (fst alpha_web_tracked) !! "alpha" = Some nsd /\
    NetworkMacros nsd !! "web" = Some "id-10" /\
    HandleNsEvent vsd_serve "INHERITED" (mkNsEvent Added "alpha") alpha_web_tracked
      = Done (None, (c', v')) /\
    namespaces c' !! "alpha" = Some (mkNamespaceData id EmptyString ∅).
Proof.
  eexists _, _, _.
  assert (namespaces (fst alpha_web_tracked) !! "alpha" = Some _) as Hns
    by (vm_compute; reflexivity).
  assert (HandleNsEvent vsd_serve "INHERITED" (mkNsEvent Added "alpha")
            (fst alpha_web_tracked, snd alpha_web_tracked) = Done (None, (_, _))) as Hrun
    by (vm_compute; reflexivity).
  destruct (HandleNsEvent_replay_resets_record vsd_serve "INHERITED" "alpha" _ _ _ _ _
              Hns Hrun) as [id Hid].
  exists id. split; [exact Hns |]. split; [vm_compute; reflexivity |].
  split; [exact Hrun | exact Hid].
Defined.
